(** * vdml_adi: the ADI (three-wire expansion bus) layer of the PROS kernel

    A shallow embedding of [src/devices/vdml_adi.c].  Every C function of the
    file is a computation in a small state monad whose state holds the file's
    globals ([errno], [analog_registry], [encoder_reversed]) and the V5 device
    behind the SDK calls.  The validation macros of the file contain [return]
    statements that leave the *enclosing* function; the monad therefore has an
    explicit early-return outcome, caught at each function boundary by [call].
    Accesses to the two global arrays are bounds-checked by the model: an index
    outside the array is undefined behaviour in C and is a separate outcome. *)

From Stdlib Require Import ZArith Zquot Bool List Ascii Lia.
From stdpp Require Import base decidable list functions.

Local Open Scope Z_scope.

(** ** Machine integers *)

Definition INT32_MAX : Z := 2147483647.
Definition INT32_MIN : Z := -2147483648.

(** Membership in the C type [int] / [int32_t] of the target (32-bit ARM). *)
Definition is_int32 (z : Z) : Prop := INT32_MIN <= z <= INT32_MAX.

(** Two's-complement wrap-around of a mathematical integer into [int32_t]. *)
Definition wrap_int32 (z : Z) : Z := (z + 2 ^ 31) mod 2 ^ 32 - 2 ^ 31.

(** Reduction of a mathematical integer into [uint32_t]. *)
Definition wrap_uint32 (z : Z) : Z := z mod 2 ^ 32.

(** The value of a C character constant. *)
Definition chr (c : ascii) : Z := Z.of_N (N_of_ascii c).

(** ** Constants *)

(** [#define]s of the file itself. *)
Definition INTERNAL_ADI_PORT : Z := 21.
Definition ADI_MOTOR_MAX_SPEED : Z := 127.
Definition ADI_MOTOR_MIN_SPEED : Z := -128.
Definition NUM_MAX_TWOWIRE : Z := 4.

(** Modelled from the spec: [NUM_ADI_PORTS] comes from a header that is not
    part of the sources; the interface "exposes up to eight logical ports" and
    the port index is an "integer in [0,7]". *)
Definition NUM_ADI_PORTS : Z := 8.

(** Modelled from the spec: [PROS_ERR], the "distinguished sentinel failure
    value", is defined in a header that is not part of the sources.  It is the
    largest [int32_t], as in the PROS API. *)
Definition PROS_ERR : Z := INT32_MAX.

(** [EINVAL] of <errno.h>, the invalid-argument class of [errno]. *)
Definition EINVAL : Z := 22.

(** ** Data model *)

(** Modelled from the spec: [adi_port_config_e_t] is declared in a header that
    is not part of the sources.  The enumerators are those named in the file
    and in the data model of the specification; [E_ADI_ERR] is the enumerator
    that [PROS_ERR] denotes when a function of this return type fails. *)
Inductive adi_port_config_e_t : Set :=
| E_ADI_ANALOG_IN
| E_ADI_ANALOG_OUT
| E_ADI_DIGITAL_IN
| E_ADI_DIGITAL_OUT
| E_ADI_SMART_BUTTON
| E_ADI_SMART_POT
| E_ADI_LEGACY_BUTTON
| E_ADI_LEGACY_POT
| E_ADI_LEGACY_LINE_SENSOR
| E_ADI_LEGACY_LIGHT_SENSOR
| E_ADI_LEGACY_ACCELEROMETER
| E_ADI_LEGACY_SERVO
| E_ADI_LEGACY_PWM
| E_ADI_LEGACY_ENCODER
| E_ADI_LEGACY_ULTRASONIC
| E_ADI_TYPE_UNDEFINED
| E_ADI_ERR.

#[global] Instance adi_port_config_eq_dec : EqDecision adi_port_config_e_t.
Proof. solve_decision. Defined.

(** Modelled from the spec: the mode macros of [adi_pin_mode] come from a
    header that is not part of the sources.  The four recognised modes are
    "{input, output, input-analog, output-analog}"; [MODE_UNRECOGNIZED] stands
    for every other [unsigned char]. *)
Inductive pin_mode_t : Set :=
| INPUT
| OUTPUT
| INPUT_ANALOG
| OUTPUT_ANALOG
| MODE_UNRECOGNIZED.

Inductive analog_type_e_t : Set := E_ANALOG_IN | E_ANALOG_GYRO.

Record adi_analog_t : Set := mk_adi_analog {
  calib : Z;
  mult : Z;
  value : Z;
  type : analog_type_e_t
}.

Definition set_calib (c : Z) (a : adi_analog_t) : adi_analog_t :=
  {| calib := c; mult := mult a; value := value a; type := type a |}.

(** One call of the V5 SDK on the ADI device, as a mock of the hardware would
    record it.  Ports are the 0-based indices the SDK receives. *)
Inductive hw_call : Set :=
| HwConfigSet (port : Z) (config : adi_port_config_e_t)
| HwConfigGet (port : Z)
| HwValueSet (port : Z) (val : Z)
| HwValueGet (port : Z).

(** Modelled from the spec: the Hardware Access Facade is an external
    collaborator ("exclusive-access claim/release plus raw per-port
    configuration-get/set and value-get/set primitives"); neither the SDK nor
    the [claim_port]/[return_port] macros are part of the sources.

    - [hw_claim]: [None] when claiming smart port [INTERNAL_ADI_PORT] succeeds,
      [Some e] when it fails with [errno = e];
    - [hw_config]: the configuration of each port (the Port Configuration
      Registry: written by configuration-set, read by configuration-get);
    - [hw_output]: the last value written to each port;
    - [hw_input n p]: the raw value port [p] delivers to the [n]-th value read;
    - [hw_reads]: the number of value reads so far;
    - [hw_trace]: every SDK call so far, oldest first. *)
Record v5_device : Type := mk_device {
  hw_claim : option Z;
  hw_config : Z -> adi_port_config_e_t;
  hw_output : Z -> Z;
  hw_input : nat -> Z -> Z;
  hw_reads : nat;
  hw_trace : list hw_call
}.

(** The process-wide state the file works on. *)
Record state : Type := mk_state {
  errno : Z;
  analog_registry : list adi_analog_t;
  encoder_reversed : list bool;
  device : v5_device
}.

Definition with_errno (e : Z) (s : state) : state :=
  {| errno := e; analog_registry := analog_registry s;
     encoder_reversed := encoder_reversed s; device := device s |}.

Definition with_analog_registry (r : list adi_analog_t) (s : state) : state :=
  {| errno := errno s; analog_registry := r;
     encoder_reversed := encoder_reversed s; device := device s |}.

Definition with_encoder_reversed (r : list bool) (s : state) : state :=
  {| errno := errno s; analog_registry := analog_registry s;
     encoder_reversed := r; device := device s |}.

Definition with_device (d : v5_device) (s : state) : state :=
  {| errno := errno s; analog_registry := analog_registry s;
     encoder_reversed := encoder_reversed s; device := d |}.

(** ** The monad: state, early return, undefined behaviour *)

Inductive array_name : Set := ANALOG_REGISTRY | ENCODER_REVERSED.

Inductive undefined : Set :=
| OutOfBounds (array : array_name) (index : Z).

(** Outcome of running a piece of a function body whose function returns an
    [R]: it falls through with a value, it executed [return r;], or it went
    wrong. *)
Inductive outcome (R A : Type) : Type :=
| Normal (a : A) (s : state)
| Returned (r : R) (s : state)
| Undefined (u : undefined).

Arguments Normal {R A} a s.
Arguments Returned {R A} r s.
Arguments Undefined {R A} u.

Definition M (R A : Type) : Type := state -> outcome R A.

#[global] Instance M_ret {R} : MRet (M R) :=
  fun A (a : A) s => Normal a s.

#[global] Instance M_bind {R} : MBind (M R) :=
  fun A B (k : A -> M R B) (m : M R A) s =>
    match m s with
    | Normal a s' => k a s'
    | Returned r s' => Returned r s'
    | Undefined u => Undefined u
    end.

(** The C statement [return r;]. *)
Definition return_ {R A} (r : R) : M R A := fun s => Returned r s.

(** A function call: the body cannot fall off its end (every path of every
    function of the file ends in a [return]), and the value it returns is the
    value of the call expression in the caller. *)
Definition call {R R'} (body : M R Empty_set) : M R' R :=
  fun s =>
    match body s with
    | Normal a _ => match a with end
    | Returned r s' => Normal r s'
    | Undefined u => Undefined u
    end.

Definition set_errno {R} (e : Z) : M R unit :=
  fun s => Normal tt (with_errno e s).

(** [for (i = 0; i < n; i++) body], threading the loop-carried variable. *)
Fixpoint for_ {R A} (n : nat) (body : A -> M R A) (acc : A) : M R A :=
  match n with
  | O => mret acc
  | S n' => acc' ← body acc; for_ n' body acc'
  end.

(** *** The global arrays *)

Definition in_bounds (i len : Z) : bool := (0 <=? i) && (i <? len).

(** [analog_registry[i].calib] *)
Definition load_calib {R} (i : Z) : M R Z :=
  fun s =>
    match (if in_bounds i NUM_ADI_PORTS
           then analog_registry s !! Z.to_nat i else None) with
    | Some a => Normal (calib a) s
    | None => Undefined (OutOfBounds ANALOG_REGISTRY i)
    end.

(** [analog_registry[i].calib = c;] *)
Definition store_calib {R} (i c : Z) : M R unit :=
  fun s =>
    match (if in_bounds i NUM_ADI_PORTS
           then analog_registry s !! Z.to_nat i else None) with
    | Some a =>
        Normal tt (with_analog_registry
                     (<[Z.to_nat i := set_calib c a]> (analog_registry s)) s)
    | None => Undefined (OutOfBounds ANALOG_REGISTRY i)
    end.

(** [encoder_reversed[i]] *)
Definition load_reversed {R} (i : Z) : M R bool :=
  fun s =>
    match (if in_bounds i NUM_MAX_TWOWIRE
           then encoder_reversed s !! Z.to_nat i else None) with
    | Some b => Normal b s
    | None => Undefined (OutOfBounds ENCODER_REVERSED i)
    end.

(** [encoder_reversed[i] = b;] *)
Definition store_reversed {R} (i : Z) (b : bool) : M R unit :=
  fun s =>
    match (if in_bounds i NUM_MAX_TWOWIRE
           then encoder_reversed s !! Z.to_nat i else None) with
    | Some _ =>
        Normal tt (with_encoder_reversed
                     (<[Z.to_nat i := b]> (encoder_reversed s)) s)
    | None => Undefined (OutOfBounds ENCODER_REVERSED i)
    end.

(** ** The hardware access facade *)

Definition log_call (c : hw_call) (d : v5_device) : v5_device :=
  {| hw_claim := hw_claim d; hw_config := hw_config d;
     hw_output := hw_output d; hw_input := hw_input d;
     hw_reads := hw_reads d; hw_trace := hw_trace d ++ [c] |}.

(** Modelled from the spec: [claim_port(port, device_type)] of vdml/vdml.h,
    which is not part of the sources ("claim exclusive access to the shared
    interface resource").  When the claim fails the enclosing function returns
    [PROS_ERR] with [errno] set by the claim. *)
Definition claim_port {R} (pros_err : R) (port : Z) : M R unit :=
  fun s =>
    match hw_claim (device s) with
    | None => Normal tt s
    | Some e => Returned pros_err (with_errno e s)
    end.

(** Modelled from the spec: [return_port(port, rtn)] of vdml/vdml.h, which is
    not part of the sources: release the claim and [return rtn;]. *)
Definition return_port {R A} (port : Z) (rtn : R) : M R A := return_ rtn.

(** Modelled from the spec: [vexDeviceAdiPortConfigSet] of the V5 SDK. *)
Definition vexDeviceAdiPortConfigSet {R} (port : Z)
    (config : adi_port_config_e_t) : M R unit :=
  fun s =>
    let d := device s in
    Normal tt (with_device
      (log_call (HwConfigSet port config)
         {| hw_claim := hw_claim d; hw_config := <[port := config]> (hw_config d);
            hw_output := hw_output d; hw_input := hw_input d;
            hw_reads := hw_reads d; hw_trace := hw_trace d |}) s).

(** Modelled from the spec: [vexDeviceAdiPortConfigGet] of the V5 SDK. *)
Definition vexDeviceAdiPortConfigGet {R} (port : Z) : M R adi_port_config_e_t :=
  fun s =>
    let d := device s in
    Normal (hw_config d port) (with_device (log_call (HwConfigGet port) d) s).

(** Modelled from the spec: [vexDeviceAdiValueSet] of the V5 SDK. *)
Definition vexDeviceAdiValueSet {R} (port val : Z) : M R unit :=
  fun s =>
    let d := device s in
    Normal tt (with_device
      (log_call (HwValueSet port val)
         {| hw_claim := hw_claim d; hw_config := hw_config d;
            hw_output := <[port := val]> (hw_output d); hw_input := hw_input d;
            hw_reads := hw_reads d; hw_trace := hw_trace d |}) s).

(** Modelled from the spec: [vexDeviceAdiValueGet] of the V5 SDK. *)
Definition vexDeviceAdiValueGet {R} (port : Z) : M R Z :=
  fun s =>
    let d := device s in
    Normal (hw_input d (hw_reads d) port)
      (with_device
         (log_call (HwValueGet port)
            {| hw_claim := hw_claim d; hw_config := hw_config d;
               hw_output := hw_output d; hw_input := hw_input d;
               hw_reads := S (hw_reads d); hw_trace := hw_trace d |}) s).

(** Modelled from the spec: [task_delay] of the RTOS, the "fixed inter-sample
    suspension"; the scheduler is outside this file and the suspension leaves
    its state alone. *)
Definition task_delay {R} (ms : Z) : M R unit := mret tt.

(** ** The macros of the file *)

(** The assignment half of [transform_adi_port(port)]: the new value of the
    variable [port]. *)
Definition adi_port_index (port : Z) : Z :=
  if (port >=? chr "a") && (port <=? chr "h") then wrap_int32 (port - chr "a")
  else if (port >=? chr "A") && (port <=? chr "H") then wrap_int32 (port - chr "A")
  else wrap_int32 (port - 1).

(** [transform_adi_port(port)]: rewrites the variable [port], then checks its
    range; the new value is the result.  [pros_err] is [PROS_ERR] in the
    return type of the enclosing function. *)
Definition transform_adi_port {R} (pros_err : R) (port : Z) : M R Z :=
  let port := adi_port_index port in
  if (port >? 7) || (port <? 0)
  then set_errno EINVAL;; return_ pros_err
  else mret port.

(** [adi_port_config_set] *)
Definition adi_port_config_set {R} (port : Z) (type : adi_port_config_e_t) : M R Z :=
  call (port ← transform_adi_port PROS_ERR port;
        claim_port PROS_ERR INTERNAL_ADI_PORT;;
        vexDeviceAdiPortConfigSet port type;;
        return_port INTERNAL_ADI_PORT 1).

(** [adi_port_config_get] *)
Definition adi_port_config_get {R} (port : Z) : M R adi_port_config_e_t :=
  call (port ← transform_adi_port E_ADI_ERR port;
        claim_port E_ADI_ERR INTERNAL_ADI_PORT;;
        rtn ← vexDeviceAdiPortConfigGet port;
        return_port INTERNAL_ADI_PORT rtn).

(** [adi_value_set] *)
Definition adi_value_set {R} (port : Z) (val : Z) : M R Z :=
  call (port ← transform_adi_port PROS_ERR port;
        claim_port PROS_ERR INTERNAL_ADI_PORT;;
        vexDeviceAdiValueSet port val;;
        return_port INTERNAL_ADI_PORT 1).

(** [adi_value_get] *)
Definition adi_value_get {R} (port : Z) : M R Z :=
  call (port ← transform_adi_port PROS_ERR port;
        claim_port PROS_ERR INTERNAL_ADI_PORT;;
        rtn ← vexDeviceAdiValueGet port;
        return_port INTERNAL_ADI_PORT rtn).

(** [a != b] on configurations. *)
Definition config_ne (a b : adi_port_config_e_t) : bool :=
  negb (bool_decide (a = b)).

(** [validate_type(port, type)] *)
Definition validate_type (port : Z) (type : adi_port_config_e_t) : M Z unit :=
  config ← adi_port_config_get port;
  if config_ne config type then return_ PROS_ERR else mret tt.

(** [validate_analog(port)] *)
Definition validate_analog (port : Z) : M Z unit :=
  config ← adi_port_config_get port;
  if config_ne config E_ADI_ANALOG_IN && config_ne config E_ADI_LEGACY_POT
     && config_ne config E_ADI_LEGACY_LINE_SENSOR
     && config_ne config E_ADI_LEGACY_LIGHT_SENSOR
     && config_ne config E_ADI_LEGACY_ACCELEROMETER
     && config_ne config E_ADI_SMART_POT
  then set_errno EINVAL;; return_ PROS_ERR
  else mret tt.

(** [validate_digital_in(port)] *)
Definition validate_digital_in (port : Z) : M Z unit :=
  config ← adi_port_config_get port;
  if config_ne config E_ADI_DIGITAL_IN && config_ne config E_ADI_LEGACY_BUTTON
     && config_ne config E_ADI_SMART_BUTTON
  then set_errno EINVAL;; return_ PROS_ERR
  else mret tt.

(** [validate_motor(port)] *)
Definition validate_motor (port : Z) : M Z unit :=
  config ← adi_port_config_get port;
  if config_ne config E_ADI_LEGACY_PWM && config_ne config E_ADI_LEGACY_SERVO
  then set_errno EINVAL;; return_ PROS_ERR
  else mret tt.

(** [validate_twowire(port_top, port_bottom)]: declares the variable [port] the
    enclosing function goes on to use; its value is the result.  [%] is C's
    remainder, [Z.rem]. *)
Definition validate_twowire (port_top port_bottom : Z) : M Z Z :=
  (if wrap_int32 (Z.abs (wrap_int32 (port_top - port_bottom))) >? 1
   then set_errno EINVAL;; return_ PROS_ERR
   else mret tt);;
  port ← (if port_top <? port_bottom then mret port_top
          else if port_bottom <? port_top then mret port_bottom
          else return_ PROS_ERR);
  (if Z.rem port 2 =? 0 then return_ PROS_ERR else mret tt);;
  mret port.

(** ** The device feature layer *)

(** The body of the loop of [adi_analog_calibrate],
    [total += adi_value_get(port); task_delay(1);]: [total] is a [uint32_t],
    and the [int32_t] the read returns is converted to it before the
    addition.  The new value of [total] is the result. *)
Definition calibrate_sample {R} (port total : Z) : M R Z :=
  v ← adi_value_get port;
  task_delay 1;;
  mret (wrap_uint32 (total + v)).

(** [adi_analog_calibrate] *)
Definition adi_analog_calibrate {R} (port : Z) : M R Z :=
  call (validate_analog port;;
        total ← for_ 512 (calibrate_sample port) 0;
        store_calib (wrap_int32 (port - 1))
          (wrap_int32 (Z.shiftr (wrap_uint32 (total + 16)) 5));;
        return_ (wrap_int32 (Z.shiftr (wrap_uint32 (total + 256)) 9))).

(** [adi_analog_read] *)
Definition adi_analog_read {R} (port : Z) : M R Z :=
  call (validate_analog port;;
        v ← adi_value_get port;
        return_ v).

(** [adi_analog_read_calibrated] *)
Definition adi_analog_read_calibrated {R} (port : Z) : M R Z :=
  call (validate_analog port;;
        v ← adi_value_get port;
        c ← load_calib (wrap_int32 (port - 1));
        return_ (wrap_int32 (v - Z.shiftr c 4))).

(** [adi_analog_read_calibrated_HR] *)
Definition adi_analog_read_calibrated_HR {R} (port : Z) : M R Z :=
  call (validate_analog port;;
        v ← adi_value_get port;
        c ← load_calib (wrap_int32 (port - 1));
        return_ (wrap_int32 (wrap_int32 (Z.shiftl v 4) - c))).

(** [adi_digital_read] *)
Definition adi_digital_read {R} (port : Z) : M R Z :=
  call (validate_digital_in port;;
        v ← adi_value_get port;
        return_ v).

(** [adi_digital_write] *)
Definition adi_digital_write {R} (port : Z) (val : bool) : M R Z :=
  call (validate_type port E_ADI_DIGITAL_OUT;;
        r ← adi_value_set port (if val then 1 else 0);
        return_ r).

(** [adi_pin_mode] *)
Definition adi_pin_mode {R} (port : Z) (mode : pin_mode_t) : M R Z :=
  call (match mode with
        | INPUT => adi_port_config_set port E_ADI_DIGITAL_IN;; mret tt
        | OUTPUT => adi_port_config_set port E_ADI_DIGITAL_OUT;; mret tt
        | INPUT_ANALOG => adi_port_config_set port E_ADI_ANALOG_IN;; mret tt
        | OUTPUT_ANALOG => adi_port_config_set port E_ADI_ANALOG_OUT;; mret tt
        | MODE_UNRECOGNIZED => set_errno EINVAL;; return_ PROS_ERR
        end;;
        return_ 1).

(** The clamp of [adi_motor_set]. *)
Definition clamp_speed (speed : Z) : Z :=
  if speed >? ADI_MOTOR_MAX_SPEED then ADI_MOTOR_MAX_SPEED
  else if speed <? ADI_MOTOR_MIN_SPEED then ADI_MOTOR_MIN_SPEED
  else speed.

(** [adi_motor_set] *)
Definition adi_motor_set {R} (port speed : Z) : M R Z :=
  call (validate_motor port;;
        let speed := clamp_speed speed in
        r ← adi_value_set port speed;
        return_ r).

(** [adi_motor_get] *)
Definition adi_motor_get {R} (port : Z) : M R Z :=
  call (validate_motor port;;
        v ← adi_value_get port;
        return_ (wrap_int32 (v - ADI_MOTOR_MAX_SPEED))).

(** [adi_motor_stop] *)
Definition adi_motor_stop {R} (port : Z) : M R Z :=
  call (validate_motor port;;
        r ← adi_value_set port 0;
        return_ r).

(** [adi_encoder_init]: [/] is C's truncating division, [Z.quot]. *)
Definition adi_encoder_init {R} (port_top port_bottom : Z) (reverse : bool) : M R Z :=
  call (port ← validate_twowire port_top port_bottom;
        store_reversed (Z.quot (wrap_int32 (port - 1)) 2) reverse;;
        r ← adi_port_config_set port E_ADI_LEGACY_ENCODER;
        return_ r).

(** [adi_encoder_get] *)
Definition adi_encoder_get {R} (enc : Z) : M R Z :=
  call (validate_type enc E_ADI_LEGACY_ENCODER;;
        reversed ← load_reversed (Z.quot (wrap_int32 (enc - 1)) 2);
        (if reversed : bool
         then v ← adi_value_get enc; return_ (wrap_int32 (- v))
         else mret tt);;
        v ← adi_value_get enc;
        return_ v).

(** [adi_encoder_reset] *)
Definition adi_encoder_reset {R} (enc : Z) : M R Z :=
  call (validate_type enc E_ADI_LEGACY_ENCODER;;
        r ← adi_value_set enc 0;
        return_ r).

(** [adi_encoder_shutdown] *)
Definition adi_encoder_shutdown {R} (enc : Z) : M R Z :=
  call (validate_type enc E_ADI_LEGACY_ENCODER;;
        r ← adi_port_config_set enc E_ADI_TYPE_UNDEFINED;
        return_ r).

(** [adi_ultrasonic_init] *)
Definition adi_ultrasonic_init {R} (port_echo port_ping : Z) : M R Z :=
  call (port ← validate_twowire port_echo port_ping;
        (if negb (port =? port_echo) then return_ PROS_ERR else mret tt);;
        r ← adi_port_config_set port_echo E_ADI_LEGACY_ULTRASONIC;
        return_ r).

(** [adi_ultrasonic_get] *)
Definition adi_ultrasonic_get {R} (ult : Z) : M R Z :=
  call (validate_type ult E_ADI_LEGACY_ULTRASONIC;;
        v ← adi_value_get ult;
        return_ v).

(** [adi_ultrasonic_shutdown] *)
Definition adi_ultrasonic_shutdown {R} (ult : Z) : M R Z :=
  call (validate_type ult E_ADI_LEGACY_ULTRASONIC;;
        r ← adi_port_config_set ult E_ADI_TYPE_UNDEFINED;
        return_ r).

(** ** Concrete states *)

Definition adi_analog_zero : adi_analog_t :=
  {| calib := 0; mult := 0; value := 0; type := E_ANALOG_IN |}.

(** The device at program start: every port unconfigured, nothing written,
    the claim succeeding, and [input] the raw values the ports will deliver. *)
Definition boot_device (input : nat -> Z -> Z) : v5_device :=
  {| hw_claim := None; hw_config := fun _ => E_ADI_TYPE_UNDEFINED;
     hw_output := fun _ => 0; hw_input := input;
     hw_reads := O; hw_trace := [] |}.

(** The state at program start: the globals are zero-initialised. *)
Definition boot_state (input : nat -> Z -> Z) : state :=
  {| errno := 0;
     analog_registry := replicate (Z.to_nat NUM_ADI_PORTS) adi_analog_zero;
     encoder_reversed := replicate (Z.to_nat NUM_MAX_TWOWIRE) false;
     device := boot_device input |}.

(** The value of a call expression, when the call comes back. *)
Definition result {R A} (o : outcome R A) : option A :=
  match o with
  | Normal a _ => Some a
  | _ => None
  end.

(** Running [m] and then [k] in the state [m] leaves. *)
Definition and_then {R A B} (o : outcome R A) (k : A -> M R B) : outcome R B :=
  match o with
  | Normal a s => k a s
  | Returned r s => Returned r s
  | Undefined u => Undefined u
  end.

(** ** Port identifiers, as the specification words them *)

(** A 1-based numeric port, 1..8. *)
Definition numeric_port (port : Z) : bool := (1 <=? port) && (port <=? 8).

(** A lower-case letter port, 'a'..'h'. *)
Definition lower_port (port : Z) : bool := (chr "a" <=? port) && (port <=? chr "h").

(** An upper-case letter port, 'A'..'H'. *)
Definition upper_port (port : Z) : bool := (chr "A" <=? port) && (port <=? chr "H").

(** The identifiers Port Addressing accepts. *)
Definition valid_port (port : Z) : bool :=
  numeric_port port || lower_port port || upper_port port.

(** The configurations of the analog family. *)
Definition analog_family : list adi_port_config_e_t :=
  [E_ADI_ANALOG_IN; E_ADI_LEGACY_POT; E_ADI_LEGACY_LINE_SENSOR;
   E_ADI_LEGACY_LIGHT_SENSOR; E_ADI_LEGACY_ACCELEROMETER; E_ADI_SMART_POT].

(** The configurations of the legacy-motor family. *)
Definition motor_family : list adi_port_config_e_t :=
  [E_ADI_LEGACY_PWM; E_ADI_LEGACY_SERVO].

(** The global arrays have the lengths of their C declarations. *)
Definition wf_state (s : state) : Prop :=
  length (analog_registry s) = Z.to_nat NUM_ADI_PORTS /\
  length (encoder_reversed s) = Z.to_nat NUM_MAX_TWOWIRE.

(** ** The public operations of the device feature layer *)

Inductive operation : Set :=
| AnalogCalibrate (port : Z)
| AnalogRead (port : Z)
| AnalogReadCalibrated (port : Z)
| AnalogReadCalibratedHR (port : Z)
| DigitalRead (port : Z)
| DigitalWrite (port : Z) (val : bool)
| MotorSet (port speed : Z)
| MotorGet (port : Z)
| MotorStop (port : Z)
| EncoderInit (port_top port_bottom : Z) (reverse : bool)
| EncoderGet (enc : Z)
| EncoderReset (enc : Z)
| EncoderShutdown (enc : Z)
| UltrasonicInit (port_echo port_ping : Z)
| UltrasonicGet (ult : Z)
| UltrasonicShutdown (ult : Z).

(** The C function behind each operation. *)
Definition run (op : operation) : M Z Z :=
  match op with
  | AnalogCalibrate port => adi_analog_calibrate port
  | AnalogRead port => adi_analog_read port
  | AnalogReadCalibrated port => adi_analog_read_calibrated port
  | AnalogReadCalibratedHR port => adi_analog_read_calibrated_HR port
  | DigitalRead port => adi_digital_read port
  | DigitalWrite port val => adi_digital_write port val
  | MotorSet port speed => adi_motor_set port speed
  | MotorGet port => adi_motor_get port
  | MotorStop port => adi_motor_stop port
  | EncoderInit port_top port_bottom reverse =>
      adi_encoder_init port_top port_bottom reverse
  | EncoderGet enc => adi_encoder_get enc
  | EncoderReset enc => adi_encoder_reset enc
  | EncoderShutdown enc => adi_encoder_shutdown enc
  | UltrasonicInit port_echo port_ping => adi_ultrasonic_init port_echo port_ping
  | UltrasonicGet ult => adi_ultrasonic_get ult
  | UltrasonicShutdown ult => adi_ultrasonic_shutdown ult
  end.

(** The validation each function opens with: the validation macro at the top
    of its body (for [adi_ultrasonic_init], together with the echo-port test
    that follows it). *)
Definition validation (op : operation) : M Z unit :=
  match op with
  | AnalogCalibrate port | AnalogRead port | AnalogReadCalibrated port
  | AnalogReadCalibratedHR port => validate_analog port
  | DigitalRead port => validate_digital_in port
  | DigitalWrite port _ => validate_type port E_ADI_DIGITAL_OUT
  | MotorSet port _ | MotorGet port | MotorStop port => validate_motor port
  | EncoderInit port_top port_bottom _ =>
      validate_twowire port_top port_bottom;; mret tt
  | EncoderGet enc | EncoderReset enc | EncoderShutdown enc =>
      validate_type enc E_ADI_LEGACY_ENCODER
  | UltrasonicInit port_echo port_ping =>
      port ← validate_twowire port_echo port_ping;
      if negb (port =? port_echo) then return_ PROS_ERR else mret tt
  | UltrasonicGet ult | UltrasonicShutdown ult =>
      validate_type ult E_ADI_LEGACY_ULTRASONIC
  end.

(** The raw identifier of an operation on a single port or handle. *)
Definition single_port (op : operation) : option Z :=
  match op with
  | AnalogCalibrate port | AnalogRead port | AnalogReadCalibrated port
  | AnalogReadCalibratedHR port | DigitalRead port | DigitalWrite port _
  | MotorSet port _ | MotorGet port | MotorStop port => Some port
  | EncoderGet enc | EncoderReset enc | EncoderShutdown enc => Some enc
  | UltrasonicGet ult | UltrasonicShutdown ult => Some ult
  | EncoderInit _ _ _ | UltrasonicInit _ _ => None
  end.

(** What an access through the identifier [port] meets in state [s]: the
    identifier is rejected, the claim of the ADI is refused with an error
    code, or the access is granted at a port index. *)
Inductive access : Set :=
| BadPort
| NoClaim (e : Z)
| Granted (index : Z).

Definition adi_access (port : Z) (s : state) : access :=
  let index := adi_port_index port in
  if (index >? 7) || (index <? 0) then BadPort
  else match hw_claim (device s) with
       | Some e => NoClaim e
       | None => Granted index
       end.

(** [s'] differs from [s] at most by configuration reads and [errno]: no
    value was read or written, no configuration written, and the auxiliary
    state is as it was. *)
Definition only_config_reads (s s' : state) : Prop :=
  analog_registry s' = analog_registry s /\
  encoder_reversed s' = encoder_reversed s /\
  hw_claim (device s') = hw_claim (device s) /\
  hw_config (device s') = hw_config (device s) /\
  hw_output (device s') = hw_output (device s) /\
  hw_input (device s') = hw_input (device s) /\
  hw_reads (device s') = hw_reads (device s) /\
  exists calls,
    hw_trace (device s') = hw_trace (device s) ++ calls /\
    Forall (fun c => exists port, c = HwConfigGet port) calls.

(** A device that delivers the raw value [v] at every read of every port. *)
Definition constant_input (v : Z) : nat -> Z -> Z := fun _ _ => v.

(** The state at program start, but with port index [index] configured as
    [config]. *)
Definition configured (index : Z) (config : adi_port_config_e_t)
    (input : nat -> Z -> Z) : state :=
  {| errno := 0;
     analog_registry := replicate (Z.to_nat NUM_ADI_PORTS) adi_analog_zero;
     encoder_reversed := replicate (Z.to_nat NUM_MAX_TWOWIRE) false;
     device :=
       {| hw_claim := None;
          hw_config := <[index := config]> (fun _ => E_ADI_TYPE_UNDEFINED);
          hw_output := fun _ => 0; hw_input := input;
          hw_reads := O; hw_trace := [] |} |}.

(** ** The two-wire rule *)

(** The pairs [validate_twowire] rejects, read off its three tests: the ports
    are more than one apart, or equal, or the smaller raw identifier is
    even. *)
Definition invalid_pair (port_top port_bottom : Z) : bool :=
  (Z.abs (port_top - port_bottom) >? 1) || (port_top =? port_bottom)
  || Z.even (Z.min port_top port_bottom).

(** The pairs the specification has rejected: as [invalid_pair], but with the
    parity test on the canonical index "taken after 0-based address
    translation". *)
Definition spec_invalid_pair (portA portB : Z) : bool :=
  (Z.abs (portA - portB) >? 1) || (portA =? portB)
  || Z.even (Z.min (adi_port_index portA) (adi_port_index portB)).

(** ** Calibration *)

(** The mathematical sum of the raw values port index [index] delivers to
    the [n] reads that follow the first [from] reads. *)
Fixpoint sample_sum (input : nat -> Z -> Z) (index : Z) (from n : nat) : Z :=
  match n with
  | O => 0
  | S n' => input from index + sample_sum input index (S from) n'
  end.

(** [s'] is [s] after [n] value reads of port index [index] and nothing
    else. *)
Definition after_reads (index : Z) (n : nat) (s s' : state) : Prop :=
  errno s' = errno s /\
  analog_registry s' = analog_registry s /\
  encoder_reversed s' = encoder_reversed s /\
  hw_claim (device s') = hw_claim (device s) /\
  hw_config (device s') = hw_config (device s) /\
  hw_output (device s') = hw_output (device s) /\
  hw_input (device s') = hw_input (device s) /\
  hw_reads (device s') = (hw_reads (device s) + n)%nat /\
  hw_trace (device s') = hw_trace (device s) ++ replicate n (HwValueGet index).

(** ** The state after one call of the SDK *)

(** [s] after [vexDeviceAdiPortConfigGet] on port index [index]. *)
Definition config_read (index : Z) (s : state) : state :=
  with_device (log_call (HwConfigGet index) (device s)) s.

(** [s] after [vexDeviceAdiPortConfigSet] of [config] on port index [index]. *)
Definition config_written (index : Z) (config : adi_port_config_e_t)
    (s : state) : state :=
  with_device
    (log_call (HwConfigSet index config)
       {| hw_claim := hw_claim (device s);
          hw_config := <[index := config]> (hw_config (device s));
          hw_output := hw_output (device s); hw_input := hw_input (device s);
          hw_reads := hw_reads (device s); hw_trace := hw_trace (device s) |}) s.

(** [s] after [vexDeviceAdiValueSet] of [val] on port index [index]. *)
Definition value_written (index val : Z) (s : state) : state :=
  with_device
    (log_call (HwValueSet index val)
       {| hw_claim := hw_claim (device s); hw_config := hw_config (device s);
          hw_output := <[index := val]> (hw_output (device s));
          hw_input := hw_input (device s);
          hw_reads := hw_reads (device s); hw_trace := hw_trace (device s) |}) s.

(** [s] after [vexDeviceAdiValueGet] on port index [index]. *)
Definition value_read (index : Z) (s : state) : state :=
  with_device
    (log_call (HwValueGet index)
       {| hw_claim := hw_claim (device s); hw_config := hw_config (device s);
          hw_output := hw_output (device s); hw_input := hw_input (device s);
          hw_reads := S (hw_reads (device s)); hw_trace := hw_trace (device s) |}) s.

(** The raw value the next value read of port index [index] delivers. *)
Definition next_raw (index : Z) (s : state) : Z :=
  hw_input (device s) (hw_reads (device s)) index.

(** The configurations of the digital-in family, the ones
    [validate_digital_in] lets through. *)
Definition digital_in_family : list adi_port_config_e_t :=
  [E_ADI_DIGITAL_IN; E_ADI_LEGACY_BUTTON; E_ADI_SMART_BUTTON].

(** The configuration each case of the [switch] of [adi_pin_mode] writes. *)
Definition mode_config (mode : pin_mode_t) : option adi_port_config_e_t :=
  match mode with
  | INPUT => Some E_ADI_DIGITAL_IN
  | OUTPUT => Some E_ADI_DIGITAL_OUT
  | INPUT_ANALOG => Some E_ADI_ANALOG_IN
  | OUTPUT_ANALOG => Some E_ADI_ANALOG_OUT
  | MODE_UNRECOGNIZED => None
  end.

(** The operations whose validation macro sets [errno] when it fails
    ([validate_analog], [validate_digital_in], [validate_motor]); the others
    are validated by [validate_type]. *)
Definition family_validated (op : operation) : bool :=
  match op with
  | AnalogCalibrate _ | AnalogRead _ | AnalogReadCalibrated _
  | AnalogReadCalibratedHR _ | DigitalRead _
  | MotorSet _ _ | MotorGet _ | MotorStop _ => true
  | _ => false
  end.

(** The configurations some operation on a single port accepts. *)
Definition usable_configurations : list adi_port_config_e_t :=
  analog_family ++ digital_in_family ++ motor_family
  ++ [E_ADI_DIGITAL_OUT; E_ADI_LEGACY_ENCODER; E_ADI_LEGACY_ULTRASONIC].

(** The configurations the validation macro of an operation on a single port
    lets through; the two-wire initialisations validate no configuration. *)
Definition accepted_configurations (op : operation) : list adi_port_config_e_t :=
  match op with
  | AnalogCalibrate _ | AnalogRead _ | AnalogReadCalibrated _
  | AnalogReadCalibratedHR _ => analog_family
  | DigitalRead _ => digital_in_family
  | DigitalWrite _ _ => [E_ADI_DIGITAL_OUT]
  | MotorSet _ _ | MotorGet _ | MotorStop _ => motor_family
  | EncoderGet _ | EncoderReset _ | EncoderShutdown _ => [E_ADI_LEGACY_ENCODER]
  | UltrasonicGet _ | UltrasonicShutdown _ => [E_ADI_LEGACY_ULTRASONIC]
  | EncoderInit _ _ _ | UltrasonicInit _ _ => []
  end.

(** [s], with the device refusing the claim with error code [e]. *)
Definition refusing (e : Z) (s : state) : state :=
  with_device
    {| hw_claim := Some e; hw_config := hw_config (device s);
       hw_output := hw_output (device s); hw_input := hw_input (device s);
       hw_reads := hw_reads (device s); hw_trace := hw_trace (device s) |} s.


(** ** What an operation may change *)

(** A relation between the state before and the state after holds of a
    piece of a function body when it holds of every run of it that does not
    go wrong. *)
Definition respects {R A} (P : state -> state -> Prop) (m : M R A) : Prop :=
  forall s,
    match m s with
    | Normal _ s' => P s s'
    | Returned _ s' => P s s'
    | Undefined _ => True
    end.

(** A global array after a run: unchanged, or, where the function is allowed
    to store into it, of the same length. *)
Definition array_kept {A} (may_store : bool) (l l' : list A) : Prop :=
  if may_store then length l' = length l else l' = l.

(** [s'] is a state a function working on port index [index] may leave [s]
    in: the configuration and the output of every other port are as before,
    the claim and the raw values to come are as before, [errno] is as before
    or [EINVAL] or the error code of the refused claim, and the two global
    arrays are kept. *)
Definition evolves (index : Z) (stores_calib stores_reversed : bool)
    (s s' : state) : Prop :=
  (forall j, j <> index ->
     hw_config (device s') j = hw_config (device s) j /\
     hw_output (device s') j = hw_output (device s) j) /\
  (errno s' = errno s \/ errno s' = EINVAL \/
   hw_claim (device s) = Some (errno s')) /\
  hw_claim (device s') = hw_claim (device s) /\
  hw_input (device s') = hw_input (device s) /\
  array_kept stores_calib (analog_registry s) (analog_registry s') /\
  array_kept stores_reversed (encoder_reversed s) (encoder_reversed s').

(** The raw identifier of the one port an operation works on: for the
    two-wire initialisations, the port they configure. *)
Definition working_port (op : operation) : Z :=
  match op with
  | AnalogCalibrate port | AnalogRead port | AnalogReadCalibrated port
  | AnalogReadCalibratedHR port | DigitalRead port | DigitalWrite port _
  | MotorSet port _ | MotorGet port | MotorStop port => port
  | EncoderGet enc | EncoderReset enc | EncoderShutdown enc => enc
  | UltrasonicGet ult | UltrasonicShutdown ult => ult
  | EncoderInit port_top port_bottom _ => Z.min port_top port_bottom
  | UltrasonicInit port_echo _ => port_echo
  end.

(** The one function that stores into [analog_registry]. *)
Definition stores_calibration (op : operation) : bool :=
  match op with AnalogCalibrate _ => true | _ => false end.

(** The one function that stores into [encoder_reversed]. *)
Definition stores_direction (op : operation) : bool :=
  match op with EncoderInit _ _ _ => true | _ => false end.

(** * Properties *)

(** ** Machine integers *)

Lemma wrap_int32_id (z : Z) : is_int32 z -> wrap_int32 z = z.
Proof.
  unfold is_int32, INT32_MIN, INT32_MAX, wrap_int32. intros Hz.
  rewrite Z.mod_small; lia.
Qed.

Lemma wrap_int32_range (z : Z) : is_int32 (wrap_int32 z).
Proof.
  unfold is_int32, INT32_MIN, INT32_MAX, wrap_int32.
  pose proof (Z.mod_pos_bound (z + 2 ^ 31) (2 ^ 32)). lia.
Qed.

Lemma wrap_uint32_id (z : Z) : 0 <= z < 2 ^ 32 -> wrap_uint32 z = z.
Proof. intros Hz. unfold wrap_uint32. now apply Z.mod_small. Qed.

Lemma wrap_uint32_range (z : Z) : 0 <= wrap_uint32 z < 2 ^ 32.
Proof. unfold wrap_uint32. now apply Z.mod_pos_bound. Qed.

Lemma wrap_uint32_add_l (a b : Z) :
  wrap_uint32 (wrap_uint32 a + b) = wrap_uint32 (a + b).
Proof. unfold wrap_uint32. now rewrite Zplus_mod_idemp_l. Qed.

(** ** The monad *)

Lemma bind_run {R A B} (m : M R A) (k : A -> M R B) (s : state) :
  (m ≫= k) s = and_then (m s) k.
Proof. reflexivity. Qed.

(** ** Port addressing *)

Lemma chr_values :
  chr "a" = 97 /\ chr "h" = 104 /\ chr "A" = 65 /\ chr "H" = 72.
Proof. repeat split; reflexivity. Qed.

Lemma adi_port_index_numeric (port : Z) :
  numeric_port port = true -> adi_port_index port = port - 1.
Proof.
  destruct chr_values as (Ha & Hh & HA & HH).
  unfold numeric_port, adi_port_index. rewrite Ha, Hh, HA, HH. intros Hp.
  destruct (port >=? 97) eqn:E1; [lia |].
  destruct (port >=? 65) eqn:E2; [lia |]. cbn [andb].
  apply wrap_int32_id. unfold is_int32, INT32_MIN, INT32_MAX. lia.
Qed.

Lemma adi_port_index_lower (port : Z) :
  lower_port port = true -> adi_port_index port = port - chr "a".
Proof.
  destruct chr_values as (Ha & Hh & HA & HH).
  unfold lower_port, adi_port_index. rewrite Ha, Hh. intros Hp.
  replace ((port >=? 97) && (port <=? 104)) with true by lia.
  apply wrap_int32_id. unfold is_int32, INT32_MIN, INT32_MAX. lia.
Qed.

Lemma adi_port_index_upper (port : Z) :
  upper_port port = true -> adi_port_index port = port - chr "A".
Proof.
  destruct chr_values as (Ha & Hh & HA & HH).
  unfold upper_port, adi_port_index. rewrite Ha, Hh, HA, HH. intros Hp.
  replace ((port >=? 97) && (port <=? 104)) with false by lia.
  replace ((port >=? 65) && (port <=? 72)) with true by lia.
  apply wrap_int32_id. unfold is_int32, INT32_MIN, INT32_MAX. lia.
Qed.

Lemma adi_port_index_valid (port : Z) :
  valid_port port = true -> 0 <= adi_port_index port <= 7.
Proof.
  destruct chr_values as (Ha & Hh & HA & HH).
  unfold valid_port. intros Hv.
  destruct (numeric_port port) eqn:E1.
  { rewrite adi_port_index_numeric by assumption. unfold numeric_port in E1. lia. }
  destruct (lower_port port) eqn:E2.
  { rewrite adi_port_index_lower by assumption. unfold lower_port in E2. lia. }
  destruct (upper_port port) eqn:E3; [| discriminate].
  rewrite adi_port_index_upper by assumption. unfold upper_port in E3. lia.
Qed.

Lemma adi_port_index_invalid (port : Z) :
  is_int32 port -> valid_port port = false ->
  adi_port_index port > 7 \/ adi_port_index port < 0.
Proof.
  destruct chr_values as (Ha & Hh & HA & HH).
  unfold valid_port, numeric_port, lower_port, upper_port, adi_port_index.
  rewrite Ha, Hh, HA, HH. unfold is_int32, INT32_MIN, INT32_MAX.
  intros Hi Hv.
  replace ((port >=? 97) && (port <=? 104)) with false by lia.
  replace ((port >=? 65) && (port <=? 72)) with false by lia.
  destruct (Z.eq_dec port (-2147483648)) as [-> | Hne].
  - left. vm_compute. reflexivity.
  - rewrite wrap_int32_id by (unfold is_int32, INT32_MIN, INT32_MAX; lia). lia.
Qed.

(** ** The four primitives *)

Lemma transform_adi_port_eq {R} (e : R) (port : Z) (s : state) :
  transform_adi_port e port s =
  if (adi_port_index port >? 7) || (adi_port_index port <? 0)
  then Returned e (with_errno EINVAL s)
  else Normal (adi_port_index port) s.
Proof.
  unfold transform_adi_port.
  destruct ((adi_port_index port >? 7) || (adi_port_index port <? 0)); reflexivity.
Qed.

(** The four primitives share their opening: translate the port, claim the
    ADI.  This splits a goal about one of them along the three outcomes. *)
Ltac primitive_cases port s :=
  rewrite transform_adi_port_eq;
  destruct ((adi_port_index port >? 7) || (adi_port_index port <? 0));
  [reflexivity |];
  unfold claim_port; destruct (hw_claim (device s)); reflexivity.

Lemma adi_port_config_set_eq {R} (port : Z) (ty : adi_port_config_e_t) (s : state) :
  adi_port_config_set (R := R) port ty s =
  match adi_access port s with
  | BadPort => Normal PROS_ERR (with_errno EINVAL s)
  | NoClaim e => Normal PROS_ERR (with_errno e s)
  | Granted i => and_then (vexDeviceAdiPortConfigSet (R := R) i ty s) (fun _ => mret 1)
  end.
Proof.
  unfold adi_port_config_set, adi_access, call, mbind, M_bind.
  primitive_cases port s.
Qed.

Lemma adi_port_config_get_eq {R} (port : Z) (s : state) :
  adi_port_config_get (R := R) port s =
  match adi_access port s with
  | BadPort => Normal E_ADI_ERR (with_errno EINVAL s)
  | NoClaim e => Normal E_ADI_ERR (with_errno e s)
  | Granted i => vexDeviceAdiPortConfigGet i s
  end.
Proof.
  unfold adi_port_config_get, adi_access, call, mbind, M_bind.
  primitive_cases port s.
Qed.

Lemma adi_value_set_eq {R} (port val : Z) (s : state) :
  adi_value_set (R := R) port val s =
  match adi_access port s with
  | BadPort => Normal PROS_ERR (with_errno EINVAL s)
  | NoClaim e => Normal PROS_ERR (with_errno e s)
  | Granted i => and_then (vexDeviceAdiValueSet (R := R) i val s) (fun _ => mret 1)
  end.
Proof.
  unfold adi_value_set, adi_access, call, mbind, M_bind.
  primitive_cases port s.
Qed.

Lemma adi_value_get_eq {R} (port : Z) (s : state) :
  adi_value_get (R := R) port s =
  match adi_access port s with
  | BadPort => Normal PROS_ERR (with_errno EINVAL s)
  | NoClaim e => Normal PROS_ERR (with_errno e s)
  | Granted i => vexDeviceAdiValueGet i s
  end.
Proof.
  unfold adi_value_get, adi_access, call, mbind, M_bind.
  primitive_cases port s.
Qed.

Lemma adi_access_invalid (port : Z) (s : state) :
  is_int32 port -> valid_port port = false -> adi_access port s = BadPort.
Proof.
  intros Hi Hv. unfold adi_access.
  destruct (adi_port_index_invalid port Hi Hv);
    replace ((adi_port_index port >? 7) || (adi_port_index port <? 0))
      with true by lia; reflexivity.
Qed.

Lemma adi_access_valid (port : Z) (s : state) :
  valid_port port = true -> hw_claim (device s) = None ->
  adi_access port s = Granted (adi_port_index port).
Proof.
  intros Hv Hc. unfold adi_access.
  pose proof (adi_port_index_valid port Hv).
  replace ((adi_port_index port >? 7) || (adi_port_index port <? 0))
    with false by lia.
  now rewrite Hc.
Qed.

(** ** Validation *)

Lemma only_config_reads_refl (s : state) : only_config_reads s s.
Proof.
  repeat split. exists []. split; [now rewrite app_nil_r | constructor].
Qed.

Lemma only_config_reads_errno (e : Z) (s s' : state) :
  only_config_reads s s' -> only_config_reads s (with_errno e s').
Proof. intros H. exact H. Qed.

Lemma adi_port_config_get_reads {R} (port : Z) (s : state) :
  exists c s', adi_port_config_get (R := R) port s = Normal c s' /\
               only_config_reads s s'.
Proof.
  rewrite adi_port_config_get_eq. destruct (adi_access port s) as [| e | i].
  - eexists _, _. split; [reflexivity |].
    apply only_config_reads_errno, only_config_reads_refl.
  - eexists _, _. split; [reflexivity |].
    apply only_config_reads_errno, only_config_reads_refl.
  - eexists _, _. split; [reflexivity |].
    repeat split. exists [HwConfigGet i]. split; [reflexivity |].
    constructor; [now exists i | constructor].
Qed.

(** The common shape of the four configuration validators: read the
    configuration, then leave the function or go on. *)
Lemma config_validator_returned (port : Z) (leave : adi_port_config_e_t -> bool)
    (errno_set : bool) (s : state) (r : Z) (s1 : state) :
  (config ← adi_port_config_get port;
   if leave config
   then (if errno_set then set_errno EINVAL;; return_ PROS_ERR
         else return_ PROS_ERR)
   else mret tt) s = Returned r s1 ->
  r = PROS_ERR /\ only_config_reads s s1.
Proof.
  unfold mbind, M_bind.
  destruct (adi_port_config_get_reads (R := Z) port s) as (c & s' & -> & Hs').
  destruct (leave c); [| discriminate].
  destruct errno_set; cbn; intros [= <- <-]; split; try reflexivity.
  - now apply only_config_reads_errno.
  - assumption.
Qed.

Lemma validate_type_returned (port : Z) (ty : adi_port_config_e_t)
    (s : state) (r : Z) (s1 : state) :
  validate_type port ty s = Returned r s1 ->
  r = PROS_ERR /\ only_config_reads s s1.
Proof.
  apply (config_validator_returned port (fun c => config_ne c ty) false).
Qed.

Lemma validate_analog_returned (port : Z) (s : state) (r : Z) (s1 : state) :
  validate_analog port s = Returned r s1 ->
  r = PROS_ERR /\ only_config_reads s s1.
Proof.
  apply (config_validator_returned port
           (fun c => config_ne c E_ADI_ANALOG_IN && config_ne c E_ADI_LEGACY_POT
                     && config_ne c E_ADI_LEGACY_LINE_SENSOR
                     && config_ne c E_ADI_LEGACY_LIGHT_SENSOR
                     && config_ne c E_ADI_LEGACY_ACCELEROMETER
                     && config_ne c E_ADI_SMART_POT) true).
Qed.

Lemma validate_digital_in_returned (port : Z) (s : state) (r : Z) (s1 : state) :
  validate_digital_in port s = Returned r s1 ->
  r = PROS_ERR /\ only_config_reads s s1.
Proof.
  apply (config_validator_returned port
           (fun c => config_ne c E_ADI_DIGITAL_IN && config_ne c E_ADI_LEGACY_BUTTON
                     && config_ne c E_ADI_SMART_BUTTON) true).
Qed.

Lemma validate_motor_returned (port : Z) (s : state) (r : Z) (s1 : state) :
  validate_motor port s = Returned r s1 ->
  r = PROS_ERR /\ only_config_reads s s1.
Proof.
  apply (config_validator_returned port
           (fun c => config_ne c E_ADI_LEGACY_PWM && config_ne c E_ADI_LEGACY_SERVO)
           true).
Qed.

(** The three ways [validate_twowire] ends. *)
Lemma validate_twowire_eq (port_top port_bottom : Z) (s : state) :
  validate_twowire port_top port_bottom s =
  if wrap_int32 (Z.abs (wrap_int32 (port_top - port_bottom))) >? 1
  then Returned PROS_ERR (with_errno EINVAL s)
  else if port_top =? port_bottom then Returned PROS_ERR s
  else if Z.rem (Z.min port_top port_bottom) 2 =? 0 then Returned PROS_ERR s
  else Normal (Z.min port_top port_bottom) s.
Proof.
  unfold validate_twowire, mbind, M_bind.
  destruct (wrap_int32 (Z.abs (wrap_int32 (port_top - port_bottom))) >? 1);
    [reflexivity |].
  cbn.
  destruct (port_top <? port_bottom) eqn:E1.
  - replace (port_top =? port_bottom) with false by lia.
    replace (Z.min port_top port_bottom) with port_top by lia.
    cbn. destruct (Z.rem port_top 2 =? 0); reflexivity.
  - destruct (port_bottom <? port_top) eqn:E2.
    + replace (port_top =? port_bottom) with false by lia.
      replace (Z.min port_top port_bottom) with port_bottom by lia.
      cbn. destruct (Z.rem port_bottom 2 =? 0); reflexivity.
    + replace (port_top =? port_bottom) with true by lia. reflexivity.
Qed.

Lemma validate_twowire_returned (port_top port_bottom : Z)
    (s : state) (r : Z) (s1 : state) :
  validate_twowire port_top port_bottom s = Returned r s1 ->
  r = PROS_ERR /\ only_config_reads s s1.
Proof.
  rewrite validate_twowire_eq.
  destruct (_ >? 1).
  { intros [= <- <-]. split; [reflexivity |].
    apply only_config_reads_errno, only_config_reads_refl. }
  destruct (port_top =? port_bottom).
  { intros [= <- <-]. split; [reflexivity | apply only_config_reads_refl]. }
  destruct (_ =? 0); [| discriminate].
  intros [= <- <-]. split; [reflexivity | apply only_config_reads_refl].
Qed.

(** A function whose body opens with a validation that leaves it comes back
    with the value the validation returned, in the state it left. *)
Lemma call_validation_returned {R A} (v : M R A) (k : A -> M R Empty_set)
    (s : state) (r : R) (s1 : state) :
  v s = Returned r s1 -> call (R' := R) (v ≫= k) s = Normal r s1.
Proof. intros H. unfold call, mbind, M_bind. now rewrite H. Qed.

Lemma validation_returned (op : operation) (s : state) (r : Z) (s1 : state) :
  validation op s = Returned r s1 ->
  r = PROS_ERR /\ only_config_reads s s1.
Proof.
  destruct op; cbn [validation];
    eauto using validate_analog_returned, validate_digital_in_returned,
      validate_type_returned, validate_motor_returned.
  - unfold mbind, M_bind.
    destruct (validate_twowire port_top port_bottom s) eqn:E; try discriminate.
    intros [= <- <-]. eauto using validate_twowire_returned.
  - unfold mbind, M_bind.
    destruct (validate_twowire port_echo port_ping s) as [port s0 | r0 s0 |] eqn:E;
      try discriminate.
    + rewrite validate_twowire_eq in E.
      destruct (_ >? 1); [discriminate |].
      destruct (port_echo =? port_ping); [discriminate |].
      destruct (_ =? 0); [discriminate |]. injection E as <- <-.
      destruct (negb _); [| discriminate].
      intros [= <- <-]. split; [reflexivity | apply only_config_reads_refl].
    + intros [= <- <-]. eauto using validate_twowire_returned.
Qed.

Lemma run_validation_returned (op : operation) (s : state) (r : Z) (s1 : state) :
  validation op s = Returned r s1 -> run op s = Normal r s1.
Proof.
  destruct op; cbn [validation run]; intros H;
    try (now apply call_validation_returned).
  - unfold adi_encoder_init. apply call_validation_returned.
    unfold mbind, M_bind in H.
    destruct (validate_twowire port_top port_bottom s); try discriminate.
    congruence.
  - unfold adi_ultrasonic_init, call. unfold mbind, M_bind in *.
    destruct (validate_twowire port_echo port_ping s) as [port s0 | r0 s0 |];
      try discriminate.
    + destruct (negb (port =? port_echo)); [| discriminate].
      unfold return_ in *. congruence.
    + congruence.
Qed.

(** C6, as amended: when the validation an operation opens with fails, the
    operation returns the failure value in the state the validation left: no
    value was read from or written to the hardware, no configuration was
    written, the calibration offsets and reversal flags are as before; the
    only calls on the device are the configuration reads of the validation
    itself. *)
Theorem failed_validation_touches_nothing (op : operation) (s : state)
    (r : Z) (s1 : state) :
  validation op s = Returned r s1 ->
  run op s = Normal PROS_ERR s1 /\ only_config_reads s s1.
Proof.
  intros H. destruct (validation_returned op s r s1 H) as [-> Hs].
  split; [now apply run_validation_returned | assumption].
Qed.

Lemma failed_validation_touches_nothing_witness :
  exists s1,
    validation (DigitalWrite 1 true)
      (configured 0 E_ADI_ANALOG_IN (constant_input 5)) = Returned PROS_ERR s1 /\
    run (DigitalWrite 1 true)
      (configured 0 E_ADI_ANALOG_IN (constant_input 5)) = Normal PROS_ERR s1 /\
    only_config_reads (configured 0 E_ADI_ANALOG_IN (constant_input 5)) s1.
Proof.
  eexists. split; [vm_compute; reflexivity |].
  apply (failed_validation_touches_nothing (DigitalWrite 1 true)
           (configured 0 E_ADI_ANALOG_IN (constant_input 5)) PROS_ERR).
  vm_compute. reflexivity.
Defined.

(** C6, as stated, fails on [adi_digital_write] at an analog-configured port:
    the operation fails, and the device has been accessed once, by the
    configuration read of [validate_type]. *)
Lemma failed_validation_counterexample :
  hw_trace (device (configured 0 E_ADI_ANALOG_IN (constant_input 5))) = [] /\
  exists s',
    adi_digital_write (R := Z) 1 true
      (configured 0 E_ADI_ANALOG_IN (constant_input 5)) = Normal PROS_ERR s' /\
    hw_trace (device s') = [HwConfigGet 0].
Proof.
  split; [reflexivity |]. eexists. split; [vm_compute; reflexivity | reflexivity].
Qed.

Lemma validation_bad_port (op : operation) (port : Z) (s : state) :
  single_port op = Some port -> adi_access port s = BadPort ->
  validation op s = Returned PROS_ERR (with_errno EINVAL s).
Proof.
  destruct op; cbn [single_port validation]; intros [= ->] Ha;
    unfold validate_analog, validate_digital_in, validate_motor, validate_type,
      mbind, M_bind;
    rewrite adi_port_config_get_eq, Ha; reflexivity.
Qed.

(** C7, as amended: 1-based ports 1..8 and the letters of either case are
    translated to the same indices 0..7; for every other [int] the translation
    fails, so that the four primitives that perform it, and every operation on
    a single port or handle, return the failure value with [errno = EINVAL]. *)
Theorem port_addressing (n port : Z) (s : state) :
  1 <= n <= 8 -> is_int32 port -> valid_port port = false ->
  (forall R (e : R),
     transform_adi_port e n s = Normal (n - 1) s /\
     transform_adi_port e (chr "a" + (n - 1)) s = Normal (n - 1) s /\
     transform_adi_port e (chr "A" + (n - 1)) s = Normal (n - 1) s) /\
  (forall R (e : R),
     transform_adi_port e port s = Returned e (with_errno EINVAL s)) /\
  (forall ty,
     adi_port_config_set (R := Z) port ty s = Normal PROS_ERR (with_errno EINVAL s)) /\
  adi_port_config_get (R := Z) port s = Normal E_ADI_ERR (with_errno EINVAL s) /\
  (forall v,
     adi_value_set (R := Z) port v s = Normal PROS_ERR (with_errno EINVAL s)) /\
  adi_value_get (R := Z) port s = Normal PROS_ERR (with_errno EINVAL s) /\
  (forall op, single_port op = Some port ->
     run op s = Normal PROS_ERR (with_errno EINVAL s)).
Proof.
  intros Hn Hi Hv.
  destruct chr_values as (Ha & Hh & HA & HH).
  pose proof (adi_access_invalid port s Hi Hv) as Hbad.
  repeat split.
  - rewrite transform_adi_port_eq, adi_port_index_numeric
      by (unfold numeric_port; lia).
    now replace ((n - 1 >? 7) || (n - 1 <? 0)) with false by lia.
  - rewrite transform_adi_port_eq, adi_port_index_lower
      by (unfold lower_port; lia).
    replace (chr "a" + (n - 1) - chr "a") with (n - 1) by lia.
    now replace ((n - 1 >? 7) || (n - 1 <? 0)) with false by lia.
  - rewrite transform_adi_port_eq, adi_port_index_upper
      by (unfold upper_port; lia).
    replace (chr "A" + (n - 1) - chr "A") with (n - 1) by lia.
    now replace ((n - 1 >? 7) || (n - 1 <? 0)) with false by lia.
  - intros R e. rewrite transform_adi_port_eq.
    destruct (adi_port_index_invalid port Hi Hv);
      now replace ((adi_port_index port >? 7) || (adi_port_index port <? 0))
        with true by lia.
  - intros ty. now rewrite adi_port_config_set_eq, Hbad.
  - now rewrite adi_port_config_get_eq, Hbad.
  - intros v. now rewrite adi_value_set_eq, Hbad.
  - now rewrite adi_value_get_eq, Hbad.
  - intros op Hop. apply run_validation_returned.
    now apply validation_bad_port with (port := port).
Qed.

Lemma port_addressing_witness :
  adi_port_index 3 = 2 /\ adi_port_index (chr "c") = 2 /\
  adi_port_index (chr "C") = 2 /\
  adi_port_config_get (R := Z) 9 (boot_state (constant_input 0)) =
    Normal E_ADI_ERR (with_errno EINVAL (boot_state (constant_input 0))) /\
  run (MotorStop 9) (boot_state (constant_input 0)) =
    Normal PROS_ERR (with_errno EINVAL (boot_state (constant_input 0))).
Proof.
  set (s := boot_state (constant_input 0)).
  assert (H3 : 1 <= 3 <= 8) by lia.
  assert (H9 : is_int32 9) by (unfold is_int32, INT32_MIN, INT32_MAX; lia).
  destruct (port_addressing 3 9 s H3 H9 eq_refl)
    as (_ & _ & _ & Hget & _ & _ & Hop).
  split; [reflexivity |]. split; [reflexivity |]. split; [reflexivity |].
  split; [exact Hget | exact (Hop (MotorStop 9) eq_refl)].
Defined.

(** C7, as stated, fails on [adi_pin_mode]: the identifier 9 is rejected by the
    translation inside [adi_port_config_set], yet the operation returns 1. *)
Lemma port_addressing_counterexample :
  valid_port 9 = false /\
  adi_pin_mode (R := Z) 9 INPUT (boot_state (constant_input 0)) =
    Normal 1 (with_errno EINVAL (boot_state (constant_input 0))) /\
  1 <> PROS_ERR.
Proof.
  split; [reflexivity |]. split; [vm_compute; reflexivity | discriminate].
Qed.

(** C10: for each of the four recognised modes [adi_pin_mode] returns 1 for
    every port argument; for a port the translation rejects, the failure of
    [adi_port_config_set] is dropped and 1 is returned all the same. *)
Theorem pin_mode_reports_success (port : Z) (mode : pin_mode_t) (s : state) :
  mode <> MODE_UNRECOGNIZED ->
  (exists s', adi_pin_mode (R := Z) port mode s = Normal 1 s') /\
  (is_int32 port -> valid_port port = false ->
   (forall ty,
      adi_port_config_set (R := Z) port ty s =
        Normal PROS_ERR (with_errno EINVAL s)) /\
   adi_pin_mode (R := Z) port mode s = Normal 1 (with_errno EINVAL s)).
Proof.
  intros Hm. split.
  - unfold adi_pin_mode, call, mbind, M_bind.
    destruct mode; try contradiction;
      rewrite adi_port_config_set_eq;
      destruct (adi_access port s); cbn; eauto.
  - intros Hi Hv. pose proof (adi_access_invalid port s Hi Hv) as Hbad.
    split.
    + intros ty. now rewrite adi_port_config_set_eq, Hbad.
    + unfold adi_pin_mode, call, mbind, M_bind.
      destruct mode; try contradiction;
        now rewrite adi_port_config_set_eq, Hbad.
Qed.

Lemma pin_mode_reports_success_witness :
  (exists s',
     adi_pin_mode (R := Z) 9 OUTPUT (boot_state (constant_input 0)) = Normal 1 s') /\
  adi_pin_mode (R := Z) 9 OUTPUT (boot_state (constant_input 0)) =
    Normal 1 (with_errno EINVAL (boot_state (constant_input 0))).
Proof.
  set (s := boot_state (constant_input 0)).
  assert (Hm : OUTPUT <> MODE_UNRECOGNIZED) by discriminate.
  assert (H9 : is_int32 9) by (unfold is_int32, INT32_MIN, INT32_MAX; lia).
  destruct (pin_mode_reports_success 9 OUTPUT s Hm) as [Hex Hbad].
  split; [exact Hex | exact (proj2 (Hbad H9 eq_refl))].
Defined.

(** ** Two-wire resolution *)

Lemma rem2_even (p : Z) : (Z.rem p 2 =? 0) = Z.even p.
Proof. symmetry. apply Zeven_rem. Qed.

Lemma validate_twowire_invalid_pair (port_top port_bottom : Z) (s : state) :
  Z.abs (port_top - port_bottom) <= INT32_MAX ->
  validate_twowire port_top port_bottom s =
  if Z.abs (port_top - port_bottom) >? 1
  then Returned PROS_ERR (with_errno EINVAL s)
  else if invalid_pair port_top port_bottom then Returned PROS_ERR s
  else Normal (Z.min port_top port_bottom) s.
Proof.
  intros Hd. rewrite validate_twowire_eq.
  assert (Hw : wrap_int32 (Z.abs (wrap_int32 (port_top - port_bottom)))
               = Z.abs (port_top - port_bottom)).
  { unfold INT32_MAX in Hd.
    rewrite (wrap_int32_id (port_top - port_bottom))
      by (unfold is_int32, INT32_MIN, INT32_MAX; lia).
    apply wrap_int32_id. unfold is_int32, INT32_MIN, INT32_MAX. lia. }
  rewrite Hw. unfold invalid_pair.
  destruct (Z.abs (port_top - port_bottom) >? 1); [reflexivity |].
  cbn [orb]. rewrite rem2_even.
  destruct (port_top =? port_bottom); [reflexivity |].
  cbn [orb]. destruct (Z.even _); reflexivity.
Qed.

(** C2, as amended: for every pair of [int] identifiers whose difference is
    representable, two-wire resolution fails exactly when the ports are more
    than one apart, equal, or the smaller *raw* identifier is even; otherwise
    it succeeds with the smaller raw identifier as canonical port.  So
    [adi_encoder_init(2,2)] and [adi_encoder_init(1,3)] fail, and the pair
    (1,2) resolves to port 1, whose raw identifier is odd. *)
Theorem twowire_resolution (port_top port_bottom : Z) (s : state) :
  Z.abs (port_top - port_bottom) <= INT32_MAX ->
  (invalid_pair port_top port_bottom = true <->
   exists s', validate_twowire port_top port_bottom s = Returned PROS_ERR s') /\
  (invalid_pair port_top port_bottom = false ->
   validate_twowire port_top port_bottom s =
     Normal (Z.min port_top port_bottom) s) /\
  (forall reverse,
     adi_encoder_init (R := Z) 2 2 reverse s = Normal PROS_ERR s /\
     adi_encoder_init (R := Z) 1 3 reverse s =
       Normal PROS_ERR (with_errno EINVAL s)) /\
  validate_twowire 1 2 s = Normal 1 s.
Proof.
  intros Hd. rewrite (validate_twowire_invalid_pair _ _ s Hd).
  split; [| split; [| split]].
  - unfold invalid_pair.
    destruct (Z.abs (port_top - port_bottom) >? 1); cbn [orb].
    { split; [eauto | reflexivity]. }
    destruct (port_top =? port_bottom); cbn [orb].
    { split; [eauto | reflexivity]. }
    destruct (Z.even _).
    { split; [eauto | reflexivity]. }
    split; [discriminate | intros (s' & [=])].
  - intros Hp. rewrite Hp.
    unfold invalid_pair in Hp.
    destruct (Z.abs (port_top - port_bottom) >? 1); [discriminate | reflexivity].
  - intros reverse. split; reflexivity.
  - reflexivity.
Qed.

Lemma twowire_resolution_witness :
  invalid_pair 3 4 = false /\
  validate_twowire 3 4 (boot_state (constant_input 0)) =
    Normal 3 (boot_state (constant_input 0)).
Proof.
  set (s := boot_state (constant_input 0)).
  assert (Hd : Z.abs (3 - 4) <= INT32_MAX) by (unfold INT32_MAX; lia).
  split; [reflexivity |].
  exact (proj1 (proj2 (twowire_resolution 3 4 s Hd)) eq_refl).
Defined.

(** C2, as stated, fails at the pair (1,2): its canonical index after the
    0-based translation is 0, which is even, so that the pair is to be
    rejected; the code accepts it, with canonical port 1. *)
Lemma twowire_resolution_counterexample :
  spec_invalid_pair 1 2 = true /\
  validate_twowire 1 2 (boot_state (constant_input 0)) =
    Normal 1 (boot_state (constant_input 0)).
Proof. split; reflexivity. Qed.

(** ** Legacy motors *)

Lemma clamp_speed_range (speed : Z) :
  ADI_MOTOR_MIN_SPEED <= clamp_speed speed <= ADI_MOTOR_MAX_SPEED.
Proof.
  unfold clamp_speed, ADI_MOTOR_MIN_SPEED, ADI_MOTOR_MAX_SPEED.
  destruct (speed >? 127) eqn:E1; [lia |].
  destruct (speed <? -128) eqn:E2; lia.
Qed.

Lemma clamp_speed_id (speed : Z) :
  ADI_MOTOR_MIN_SPEED <= speed <= ADI_MOTOR_MAX_SPEED -> clamp_speed speed = speed.
Proof.
  unfold clamp_speed, ADI_MOTOR_MIN_SPEED, ADI_MOTOR_MAX_SPEED. intros H.
  replace (speed >? 127) with false by lia.
  now replace (speed <? -128) with false by lia.
Qed.

Lemma clamp_speed_max_min (speed : Z) :
  clamp_speed speed = Z.max (-128) (Z.min 127 speed).
Proof.
  unfold clamp_speed, ADI_MOTOR_MIN_SPEED, ADI_MOTOR_MAX_SPEED.
  destruct (speed >? 127) eqn:E1; [lia |].
  destruct (speed <? -128) eqn:E2; lia.
Qed.

(** C8, as amended: on a motor-configured port [adi_motor_set] clamps the
    speed to [-128, 127]: the value written is 127 for every speed above 127
    (200, for one), -128 for every speed below -128 (-200, for one) and the
    speed itself within the range; it writes that value, and no other, to the
    port, and returns 1, the status of the write. *)
Theorem motor_set_clamps (port speed : Z) (s : state) :
  valid_port port = true -> hw_claim (device s) = None ->
  In (hw_config (device s) (adi_port_index port)) motor_family ->
  let written := Z.max (-128) (Z.min 127 speed) in
  -128 <= written <= 127 /\
  (speed > 127 -> written = 127) /\
  (speed < -128 -> written = -128) /\
  (-128 <= speed <= 127 -> written = speed) /\
  exists s',
    adi_motor_set (R := Z) port speed s = Normal 1 s' /\
    hw_output (device s') (adi_port_index port) = written /\
    hw_trace (device s') =
      hw_trace (device s) ++ [HwConfigGet (adi_port_index port);
                              HwValueSet (adi_port_index port) written].
Proof.
  intros Hv Hc Hm written.
  split; [unfold written; lia |].
  split; [unfold written; lia |].
  split; [unfold written; lia |].
  split; [unfold written; lia |].
  unfold written. rewrite <- clamp_speed_max_min.
  unfold adi_motor_set, call, validate_motor, mbind, M_bind.
  rewrite adi_port_config_get_eq, (adi_access_valid port s Hv Hc).
  cbn [vexDeviceAdiPortConfigGet].
  assert (Hne : config_ne (hw_config (device s) (adi_port_index port)) E_ADI_LEGACY_PWM
                && config_ne (hw_config (device s) (adi_port_index port)) E_ADI_LEGACY_SERVO
                = false).
  { destruct Hm as [<- | [<- | []]]; reflexivity. }
  rewrite Hne. cbn [mret M_ret].
  rewrite adi_value_set_eq, adi_access_valid by assumption.
  cbn. eexists. split; [reflexivity |]. split.
  - apply fn_lookup_insert.
  - cbn. now rewrite <- app_assoc.
Qed.

Lemma motor_set_clamps_witness :
  exists s',
    adi_motor_set (R := Z) 1 200
      (configured 0 E_ADI_LEGACY_PWM (constant_input 0)) = Normal 1 s' /\
    hw_output (device s') 0 = 127 /\
    hw_trace (device s') = [HwConfigGet 0; HwValueSet 0 127].
Proof.
  set (s := configured 0 E_ADI_LEGACY_PWM (constant_input 0)).
  assert (Hm : In (hw_config (device s) (adi_port_index 1)) motor_family)
    by (left; reflexivity).
  destruct (motor_set_clamps 1 200 s eq_refl eq_refl Hm)
    as (_ & _ & _ & _ & s' & Hrun & Hout & Htrace).
  exists s'. split; [exact Hrun |]. split; [exact Hout | exact Htrace].
Defined.

(** C8, as stated, fails for the speed 200: the value written is 127, the
    value returned is 1. *)
Lemma motor_set_clamps_counterexample :
  exists s',
    adi_motor_set (R := Z) 1 200 (configured 0 E_ADI_LEGACY_PWM (constant_input 0))
      = Normal 1 s' /\
    hw_trace (device s') = [HwConfigGet 0; HwValueSet 0 127] /\
    1 <> 127.
Proof.
  eexists. split; [vm_compute; reflexivity |].
  split; [reflexivity | discriminate].
Qed.

(** ** Two-wire devices *)

(** Whatever the pair, a two-wire initialisation that comes back returns the
    status of [adi_port_config_set] or the failure value, never a port other
    than 1. *)
Lemma adi_encoder_init_value (port_top port_bottom : Z) (reverse : bool)
    (s : state) (v : Z) (s' : state) :
  adi_encoder_init (R := Z) port_top port_bottom reverse s = Normal v s' ->
  v = 1 \/ v = PROS_ERR.
Proof.
  unfold adi_encoder_init, call. rewrite bind_run, validate_twowire_eq.
  destruct (_ >? 1); [intros [= <- _]; now right |].
  destruct (port_top =? port_bottom); [intros [= <- _]; now right |].
  destruct (_ =? 0); [intros [= <- _]; now right |].
  cbn [and_then]. rewrite bind_run. unfold store_reversed.
  destruct (if in_bounds _ _ then _ else _); [| discriminate].
  cbn [and_then]. rewrite bind_run, adi_port_config_set_eq.
  destruct (adi_access _ _); cbn; intros [= <- _]; auto.
Qed.

Lemma adi_ultrasonic_init_value (port_echo port_ping : Z)
    (s : state) (v : Z) (s' : state) :
  adi_ultrasonic_init (R := Z) port_echo port_ping s = Normal v s' ->
  v = 1 \/ v = PROS_ERR.
Proof.
  unfold adi_ultrasonic_init, call. rewrite bind_run, validate_twowire_eq.
  destruct (_ >? 1); [intros [= <- _]; now right |].
  destruct (port_echo =? port_ping); [intros [= <- _]; now right |].
  destruct (_ =? 0); [intros [= <- _]; now right |].
  cbn [and_then]. rewrite bind_run.
  destruct (negb _); [intros [= <- _]; now right |].
  cbn [mret M_ret and_then]. rewrite bind_run, adi_port_config_set_eq.
  destruct (adi_access _ _); cbn; intros [= <- _]; auto.
Qed.

(** C1: [adi_encoder_init] and [adi_ultrasonic_init] return what
    [adi_port_config_set] returns, the status 1, not the canonical port.  For
    the accepted pair (3,4) the canonical port is 3 and the handle is 1; the
    device was configured at port 3 (index 2), so every operation keyed by the
    handle is refused, while the same operation keyed by the canonical port
    goes through. *)
Theorem init_handle_is_status :
  let s := boot_state (constant_input 5) in
  validate_twowire 3 4 s = Normal 3 s /\
  (exists s',
     adi_encoder_init (R := Z) 3 4 false s = Normal 1 s' /\
     hw_trace (device s') = [HwConfigSet 2 E_ADI_LEGACY_ENCODER] /\
     result (adi_encoder_get (R := Z) 1 s') = Some PROS_ERR /\
     result (adi_encoder_reset (R := Z) 1 s') = Some PROS_ERR /\
     result (adi_encoder_shutdown (R := Z) 1 s') = Some PROS_ERR /\
     result (adi_encoder_get (R := Z) 3 s') = Some 5) /\
  (exists s',
     adi_ultrasonic_init (R := Z) 3 4 s = Normal 1 s' /\
     hw_trace (device s') = [HwConfigSet 2 E_ADI_LEGACY_ULTRASONIC] /\
     result (adi_ultrasonic_get (R := Z) 1 s') = Some PROS_ERR /\
     result (adi_ultrasonic_shutdown (R := Z) 1 s') = Some PROS_ERR /\
     result (adi_ultrasonic_get (R := Z) 3 s') = Some 5).
Proof.
  intros s. split; [reflexivity |]. split.
  - eexists. split; [vm_compute; reflexivity |].
    repeat split; vm_compute; reflexivity.
  - eexists. split; [vm_compute; reflexivity |].
    repeat split; vm_compute; reflexivity.
Qed.

(** C3: after [adi_encoder_init(3, 4, reverse)] at program start,
    [adi_encoder_get] on the returned handle returns the failure value,
    whatever the raw value [raw] of the encoder and whatever [reverse]: the
    handle is 1 and port 1 is not configured as an encoder.  Read through the
    canonical port 3 instead, the raw value is negated exactly when [reverse]
    is set. *)
Theorem encoder_get_on_returned_handle (raw : Z) (reverse : bool) :
  let s := boot_state (constant_input raw) in
  result (and_then (adi_encoder_init (R := Z) 3 4 reverse s)
            (fun handle => adi_encoder_get handle)) = Some PROS_ERR /\
  result (and_then (adi_encoder_init (R := Z) 3 4 reverse s)
            (fun _ => adi_encoder_get 3))
    = Some (if reverse then wrap_int32 (- raw) else raw).
Proof. destruct reverse; split; reflexivity. Qed.

(** ** Error reporting *)

(** C5: an exact-type mismatch and the equal-ports and even-canonical two-wire
    failures return the failure value and leave [errno] as it was (0 here);
    the family validators on the same port do set it. *)
Theorem silent_failures_leave_errno :
  let s := configured 0 E_ADI_ANALOG_IN (constant_input 5) in
  errno s = 0 /\
  (exists s', adi_digital_write (R := Z) 1 true s = Normal PROS_ERR s' /\
              errno s' = 0) /\
  (exists s', adi_encoder_get (R := Z) 1 s = Normal PROS_ERR s' /\ errno s' = 0) /\
  (exists s', adi_encoder_reset (R := Z) 1 s = Normal PROS_ERR s' /\ errno s' = 0) /\
  (exists s', adi_encoder_shutdown (R := Z) 1 s = Normal PROS_ERR s' /\
              errno s' = 0) /\
  (exists s', adi_ultrasonic_get (R := Z) 1 s = Normal PROS_ERR s' /\ errno s' = 0) /\
  (exists s', adi_ultrasonic_shutdown (R := Z) 1 s = Normal PROS_ERR s' /\
              errno s' = 0) /\
  adi_encoder_init (R := Z) 2 2 false s = Normal PROS_ERR s /\
  adi_encoder_init (R := Z) 2 3 false s = Normal PROS_ERR s /\
  adi_ultrasonic_init (R := Z) 2 2 s = Normal PROS_ERR s /\
  adi_ultrasonic_init (R := Z) 2 3 s = Normal PROS_ERR s /\
  (exists s', adi_motor_stop (R := Z) 1 s = Normal PROS_ERR s' /\
              errno s' = EINVAL) /\
  adi_encoder_init (R := Z) 1 3 false s = Normal PROS_ERR (with_errno EINVAL s).
Proof.
  intros s. split; [reflexivity |].
  repeat (split; [first [reflexivity
                        | eexists; split; [vm_compute; reflexivity | reflexivity]] |]).
  reflexivity.
Qed.

(** ** The analog registry *)

(** C9: for the letter port 'a', configured as analog input, the three
    functions index [analog_registry] at ['a' - 1 = 96], outside its eight
    entries; the numeric form 1 of the same port uses entry 0. *)
Theorem analog_registry_index_of_letter :
  let s := configured 0 E_ADI_ANALOG_IN (constant_input 5) in
  adi_port_index (chr "a") = adi_port_index 1 /\
  in_bounds (wrap_int32 (chr "a" - 1)) NUM_ADI_PORTS = false /\
  adi_analog_calibrate (R := Z) (chr "a") s
    = Undefined (OutOfBounds ANALOG_REGISTRY 96) /\
  adi_analog_read_calibrated (R := Z) (chr "a") s
    = Undefined (OutOfBounds ANALOG_REGISTRY 96) /\
  adi_analog_read_calibrated_HR (R := Z) (chr "a") s
    = Undefined (OutOfBounds ANALOG_REGISTRY 96) /\
  exists s',
    adi_analog_calibrate (R := Z) 1 s = Normal 5 s' /\
    calib <$> analog_registry s' !! 0%nat = Some 80.
Proof.
  intros s. repeat (split; [vm_compute; reflexivity |]).
  eexists. split; vm_compute; reflexivity.
Qed.

(** ** Calibration *)

Lemma sample_sum_constant (input : nat -> Z -> Z) (index V : Z) (n from : nat) :
  (forall k, (k < n)%nat -> input (from + k)%nat index = V) ->
  sample_sum input index from n = Z.of_nat n * V.
Proof.
  revert from. induction n as [| n IH]; intros from HV.
  - reflexivity.
  - cbn [sample_sum]. rewrite IH.
    + specialize (HV O). rewrite Nat.add_0_r in HV. rewrite HV by lia. lia.
    + intros k Hk. specialize (HV (S k)).
      replace (S from + k)%nat with (from + S k)%nat by lia. apply HV. lia.
Qed.

Lemma calibrate_sample_eq (port total : Z) (s : state) :
  0 <= adi_port_index port <= 7 -> hw_claim (device s) = None ->
  calibrate_sample (R := Z) port total s =
  and_then (vexDeviceAdiValueGet (adi_port_index port) s)
    (fun v => mret (wrap_uint32 (total + v))).
Proof.
  intros Hidx Hc. unfold calibrate_sample, mbind, M_bind.
  rewrite adi_value_get_eq. unfold adi_access.
  replace ((adi_port_index port >? 7) || (adi_port_index port <? 0))
    with false by lia.
  rewrite Hc. reflexivity.
Qed.

(** The sampling loop of [adi_analog_calibrate] on a port the device grants:
    [n] reads, accumulated modulo [2^32]. *)
Lemma sampling_loop (port : Z) (n : nat) (total : Z) (s : state) :
  0 <= adi_port_index port <= 7 ->
  hw_claim (device s) = None -> 0 <= total < 2 ^ 32 ->
  exists s',
    for_ (R := Z) n (calibrate_sample port) total s
    = Normal (wrap_uint32
                (total + sample_sum (hw_input (device s)) (adi_port_index port)
                           (hw_reads (device s)) n)) s'
    /\ after_reads (adi_port_index port) n s s'.
Proof.
  intros Hidx. revert total s.
  induction n as [| n IH]; intros total s Hc Ht.
  - exists s. split.
    + cbn. rewrite Z.add_0_r, wrap_uint32_id by assumption. reflexivity.
    + repeat split; cbn; auto using app_nil_r.
  - cbn [for_ sample_sum]. unfold mbind, M_bind.
    rewrite calibrate_sample_eq by assumption.
    cbn [vexDeviceAdiValueGet and_then mret M_ret].
    match goal with
    | |- context [for_ n _ ?t ?st] =>
        destruct (IH t st) as (s' & Hrun & Hs');
        [exact Hc | apply wrap_uint32_range |]
    end.
    exists s'. split.
    + rewrite Hrun. cbn. rewrite wrap_uint32_add_l. f_equal. f_equal. lia.
    + destruct Hs' as (H1 & H2 & H3 & H4 & H5 & H6 & H7 & H8 & H9).
      cbn in *. repeat split; try assumption.
      * rewrite H8. lia.
      * rewrite H9, <- app_assoc. reflexivity.
Qed.

Lemma shiftr_uint32_is_int32 (z n : Z) :
  0 <= z < 2 ^ 32 -> 1 <= n -> wrap_int32 (Z.shiftr z n) = Z.shiftr z n.
Proof.
  intros Hz Hn. apply wrap_int32_id. rewrite Z.shiftr_div_pow2 by lia.
  unfold is_int32, INT32_MIN, INT32_MAX.
  assert (0 <= z / 2 ^ n) by (apply Z.div_pos; lia).
  assert (z / 2 ^ n <= z / 2 ^ 1).
  { apply Z.div_le_compat_l; [lia |]. split; [lia |].
    apply Z.pow_le_mono_r; lia. }
  assert (z / 2 ^ 1 < 2 ^ 31) by (apply Z.div_lt_upper_bound; lia).
  lia.
Qed.

Lemma analog_family_passes (config : adi_port_config_e_t) :
  In config analog_family ->
  config_ne config E_ADI_ANALOG_IN && config_ne config E_ADI_LEGACY_POT
  && config_ne config E_ADI_LEGACY_LINE_SENSOR
  && config_ne config E_ADI_LEGACY_LIGHT_SENSOR
  && config_ne config E_ADI_LEGACY_ACCELEROMETER
  && config_ne config E_ADI_SMART_POT = false.
Proof.
  intros [<- | [<- | [<- | [<- | [<- | [<- | []]]]]]]; reflexivity.
Qed.

(** C4, as amended: on a numeric port 1..8 configured in the analog family,
    with the device granting access, [adi_analog_calibrate] reads the port 512
    times, accumulates the raw values modulo [2^32], stores
    [(sum + 16) >> 5] as the calibration of that port (the other entries are
    left alone) and returns [(sum + 256) >> 9]; for a constant raw value [V]
    with [0 <= V < 2^23] the calibration stored is [16 V] and the value
    returned is [V]. *)
Theorem analog_calibrate_spec (port V : Z) (s : state) :
  numeric_port port = true -> wf_state s -> hw_claim (device s) = None ->
  In (hw_config (device s) (port - 1)) analog_family ->
  let sum :=
    wrap_uint32 (sample_sum (hw_input (device s)) (port - 1)
                   (hw_reads (device s)) 512) in
  let calibration := Z.shiftr (wrap_uint32 (sum + 16)) 5 in
  let baseline := Z.shiftr (wrap_uint32 (sum + 256)) 9 in
  (exists s' entry,
     adi_analog_calibrate (R := Z) port s = Normal baseline s' /\
     analog_registry s !! Z.to_nat (port - 1) = Some entry /\
     analog_registry s' =
       <[Z.to_nat (port - 1) := set_calib calibration entry]> (analog_registry s) /\
     hw_reads (device s') = (hw_reads (device s) + 512)%nat /\
     hw_trace (device s') =
       hw_trace (device s) ++ HwConfigGet (port - 1)
                              :: replicate 512 (HwValueGet (port - 1))) /\
  ((forall k, (k < 512)%nat ->
      hw_input (device s) (hw_reads (device s) + k)%nat (port - 1) = V) ->
   0 <= V < 2 ^ 23 ->
   calibration = 16 * V /\ baseline = V).
Proof.
  intros Hn (Hlen & _) Hc Hcfg sum calibration baseline.
  assert (Hv : valid_port port = true) by (unfold valid_port; now rewrite Hn).
  pose proof (adi_port_index_numeric port Hn) as Hidx.
  assert (Hr : 0 <= port - 1 <= 7) by (unfold numeric_port in Hn; lia).
  split.
  - unfold adi_analog_calibrate, call, validate_analog.
    rewrite !bind_run.
    rewrite adi_port_config_get_eq, (adi_access_valid port s Hv Hc), Hidx.
    cbn [vexDeviceAdiPortConfigGet and_then].
    rewrite (analog_family_passes _ Hcfg). cbn [mret M_ret and_then].
    rewrite bind_run.
    match goal with
    | |- context [for_ _ _ 0 ?st] =>
        destruct (sampling_loop port 512 0 st) as (s2 & Hrun & Hs2);
        [rewrite Hidx; exact Hr | exact Hc | lia |]
    end.
    rewrite Hrun, Hidx. cbn [Z.add and_then]. rewrite bind_run.
    destruct Hs2 as (H1 & H2 & H3 & H4 & H5 & H6 & H7 & H8 & H9).
    rewrite Hidx in H9.
    cbn [device with_device log_call analog_registry hw_input hw_reads hw_trace]
      in H2, H8, H9 |- *.
    fold sum. unfold store_calib.
    rewrite (wrap_int32_id (port - 1))
      by (unfold is_int32, INT32_MIN, INT32_MAX; lia).
    replace (in_bounds (port - 1) NUM_ADI_PORTS) with true
      by (unfold in_bounds, NUM_ADI_PORTS; lia).
    rewrite H2.
    destruct (lookup_lt_is_Some_2 (analog_registry s) (Z.to_nat (port - 1)))
      as [entry Hentry].
    { rewrite Hlen. unfold NUM_ADI_PORTS. lia. }
    rewrite Hentry. cbn [and_then]. unfold return_.
    rewrite !shiftr_uint32_is_int32 by (try apply wrap_uint32_range; lia).
    eexists _, entry. split; [reflexivity |].
    split; [reflexivity |]. split; [reflexivity |].
    split; [exact H8 |].
    cbn [device with_device with_analog_registry hw_trace].
    rewrite H9, <- app_assoc. reflexivity.
  - intros HV HVr.
    assert (Hsum : sum = 512 * V).
    { unfold sum. rewrite (sample_sum_constant _ _ V) by exact HV.
      apply wrap_uint32_id. lia. }
    unfold calibration, baseline. rewrite Hsum.
    rewrite !wrap_uint32_id by lia. rewrite !Z.shiftr_div_pow2 by lia.
    split.
    + symmetry. apply Z.div_unique with (r := 16); lia.
    + symmetry. apply Z.div_unique with (r := 256); lia.
Qed.

Lemma analog_calibrate_spec_witness :
  exists s',
    adi_analog_calibrate (R := Z) 1
      (configured 0 E_ADI_ANALOG_IN (constant_input 5)) = Normal 5 s' /\
    calib <$> analog_registry s' !! 0%nat = Some 80.
Proof.
  set (s := configured 0 E_ADI_ANALOG_IN (constant_input 5)).
  pose proof (analog_calibrate_spec 1 5 s eq_refl (conj eq_refl eq_refl)
                eq_refl (or_introl eq_refl)) as H.
  cbv zeta in H.
  destruct H as [(s' & entry & Hrun & Hentry & Hreg & _) Hconst].
  destruct Hconst as [Hcal Hbase]; [intros; reflexivity | lia |].
  rewrite Hbase in Hrun. rewrite Hcal in Hreg.
  exists s'. split.
  - exact Hrun.
  - rewrite Hreg. reflexivity.
Defined.

(** C4, as stated, fails for the constant raw value -1: the sum is taken
    modulo [2^32], so that the calibration stored is [2^27 - 16], not -16, and
    the value returned is [2^23 - 1], not -1. *)
Lemma analog_calibrate_counterexample :
  exists s',
    adi_analog_calibrate (R := Z) 1
      (configured 0 E_ADI_ANALOG_IN (constant_input (-1))) = Normal 8388607 s' /\
    calib <$> analog_registry s' !! 0%nat = Some 134217712 /\
    8388607 <> -1 /\ 134217712 <> 16 * -1.
Proof.
  eexists. split; [vm_compute; reflexivity |].
  split; [reflexivity |]. split; discriminate.
Qed.

(** * Further properties *)

(** ** The SDK calls and the granted access *)

Lemma sdk_config_get {R} (i : Z) (s : state) :
  vexDeviceAdiPortConfigGet (R := R) i s
  = Normal (hw_config (device s) i) (config_read i s).
Proof. reflexivity. Qed.

Lemma adi_port_config_set_granted {R} (port : Z) (ty : adi_port_config_e_t)
    (s : state) :
  valid_port port = true -> hw_claim (device s) = None ->
  adi_port_config_set (R := R) port ty s
  = Normal 1 (config_written (adi_port_index port) ty s).
Proof.
  intros Hv Hc. now rewrite adi_port_config_set_eq, adi_access_valid.
Qed.

Lemma adi_port_config_get_granted {R} (port : Z) (s : state) :
  valid_port port = true -> hw_claim (device s) = None ->
  adi_port_config_get (R := R) port s
  = Normal (hw_config (device s) (adi_port_index port))
      (config_read (adi_port_index port) s).
Proof.
  intros Hv Hc. now rewrite adi_port_config_get_eq, adi_access_valid.
Qed.

Lemma adi_value_set_granted {R} (port val : Z) (s : state) :
  valid_port port = true -> hw_claim (device s) = None ->
  adi_value_set (R := R) port val s
  = Normal 1 (value_written (adi_port_index port) val s).
Proof.
  intros Hv Hc. now rewrite adi_value_set_eq, adi_access_valid.
Qed.

Lemma adi_value_get_granted {R} (port : Z) (s : state) :
  valid_port port = true -> hw_claim (device s) = None ->
  adi_value_get (R := R) port s
  = Normal (next_raw (adi_port_index port) s)
      (value_read (adi_port_index port) s).
Proof.
  intros Hv Hc. now rewrite adi_value_get_eq, adi_access_valid.
Qed.

Lemma adi_access_refused (port e : Z) (s : state) :
  valid_port port = true -> hw_claim (device s) = Some e ->
  adi_access port s = NoClaim e.
Proof.
  intros Hv Hc. unfold adi_access.
  pose proof (adi_port_index_valid port Hv).
  replace ((adi_port_index port >? 7) || (adi_port_index port <? 0))
    with false by lia.
  now rewrite Hc.
Qed.

(** ** The port configuration registry *)

(** X1: a configuration written through one identifier of a port is read
    back through every identifier of that port (number or letter, either
    case), and the configuration of every other port is as before. *)
Theorem config_set_then_get (port port' : Z) (ty : adi_port_config_e_t)
    (s : state) :
  valid_port port = true -> valid_port port' = true ->
  hw_claim (device s) = None ->
  and_then (adi_port_config_set (R := Z) port ty s)
    (fun _ => adi_port_config_get port')
  = Normal (if adi_port_index port' =? adi_port_index port then ty
            else hw_config (device s) (adi_port_index port'))
      (config_read (adi_port_index port')
         (config_written (adi_port_index port) ty s)).
Proof.
  intros Hv Hv' Hc.
  rewrite adi_port_config_set_granted by assumption. cbn [and_then].
  rewrite adi_port_config_get_granted by assumption.
  f_equal. cbn.
  destruct (Z.eqb_spec (adi_port_index port') (adi_port_index port)) as [-> | Hne].
  - apply fn_lookup_insert.
  - apply fn_lookup_insert_ne. congruence.
Qed.

Lemma config_set_then_get_witness :
  result (and_then (adi_port_config_set (R := Z) (chr "c") E_ADI_LEGACY_SERVO
                      (boot_state (constant_input 0)))
            (fun _ => adi_port_config_get 3)) = Some E_ADI_LEGACY_SERVO.
Proof.
  rewrite (config_set_then_get (chr "c") 3 E_ADI_LEGACY_SERVO
             (boot_state (constant_input 0)) eq_refl eq_refl eq_refl).
  reflexivity.
Defined.

(** ** Validation, with the access granted or refused *)

Lemma analog_family_rejects (config : adi_port_config_e_t) :
  ~ In config analog_family ->
  config_ne config E_ADI_ANALOG_IN && config_ne config E_ADI_LEGACY_POT
  && config_ne config E_ADI_LEGACY_LINE_SENSOR
  && config_ne config E_ADI_LEGACY_LIGHT_SENSOR
  && config_ne config E_ADI_LEGACY_ACCELEROMETER
  && config_ne config E_ADI_SMART_POT = true.
Proof.
  intros H. destruct config; try reflexivity; exfalso; apply H; cbn; tauto.
Qed.

Lemma digital_in_family_passes (config : adi_port_config_e_t) :
  In config digital_in_family ->
  config_ne config E_ADI_DIGITAL_IN && config_ne config E_ADI_LEGACY_BUTTON
  && config_ne config E_ADI_SMART_BUTTON = false.
Proof. intros [<- | [<- | [<- | []]]]; reflexivity. Qed.

Lemma digital_in_family_rejects (config : adi_port_config_e_t) :
  ~ In config digital_in_family ->
  config_ne config E_ADI_DIGITAL_IN && config_ne config E_ADI_LEGACY_BUTTON
  && config_ne config E_ADI_SMART_BUTTON = true.
Proof.
  intros H. destruct config; try reflexivity; exfalso; apply H; cbn; tauto.
Qed.

Lemma motor_family_passes (config : adi_port_config_e_t) :
  In config motor_family ->
  config_ne config E_ADI_LEGACY_PWM && config_ne config E_ADI_LEGACY_SERVO = false.
Proof. intros [<- | [<- | []]]; reflexivity. Qed.

Lemma motor_family_rejects (config : adi_port_config_e_t) :
  ~ In config motor_family ->
  config_ne config E_ADI_LEGACY_PWM && config_ne config E_ADI_LEGACY_SERVO = true.
Proof.
  intros H. destruct config; try reflexivity; exfalso; apply H; cbn; tauto.
Qed.

Lemma config_ne_passes (config ty : adi_port_config_e_t) :
  In config [ty] -> config_ne config ty = false.
Proof.
  intros [<- | []]. unfold config_ne. now rewrite bool_decide_eq_true_2.
Qed.

Lemma config_ne_rejects (config ty : adi_port_config_e_t) :
  ~ In config [ty] -> config_ne config ty = true.
Proof.
  intros H. unfold config_ne. rewrite bool_decide_eq_false_2; [reflexivity |].
  intros ->. apply H. now left.
Qed.

(** The validation of an operation on a single port, the access granted. *)
Lemma validation_granted (op : operation) (port : Z) (s : state) :
  single_port op = Some port ->
  valid_port port = true -> hw_claim (device s) = None ->
  (In (hw_config (device s) (adi_port_index port)) (accepted_configurations op) ->
   validation op s = Normal tt (config_read (adi_port_index port) s)) /\
  (~ In (hw_config (device s) (adi_port_index port)) (accepted_configurations op) ->
   validation op s =
     Returned PROS_ERR
       (if family_validated op
        then with_errno EINVAL (config_read (adi_port_index port) s)
        else config_read (adi_port_index port) s)).
Proof.
  intros Hop Hv Hc.
  destruct op; cbn [single_port] in Hop; try discriminate;
    injection Hop as ->;
    cbn [validation accepted_configurations family_validated];
    unfold validate_analog, validate_digital_in, validate_motor, validate_type;
    rewrite bind_run, adi_port_config_get_granted by assumption;
    cbn [and_then]; split; intros Hin;
    rewrite ?(analog_family_passes _ Hin), ?(analog_family_rejects _ Hin),
      ?(digital_in_family_passes _ Hin), ?(digital_in_family_rejects _ Hin),
      ?(motor_family_passes _ Hin), ?(motor_family_rejects _ Hin),
      ?(config_ne_passes _ _ Hin), ?(config_ne_rejects _ _ Hin);
    reflexivity.
Qed.

(** The validation of an operation on a single port, the access refused. *)
Lemma validation_refused (op : operation) (port e : Z) (s : state) :
  single_port op = Some port ->
  valid_port port = true -> hw_claim (device s) = Some e ->
  validation op s =
    Returned PROS_ERR (with_errno (if family_validated op then EINVAL else e) s).
Proof.
  intros Hop Hv Hc.
  destruct op; cbn [single_port] in Hop; try discriminate;
    injection Hop as ->;
    cbn [validation family_validated];
    unfold validate_analog, validate_digital_in, validate_motor, validate_type;
    rewrite bind_run, adi_port_config_get_eq, (adi_access_refused _ e) by assumption;
    reflexivity.
Qed.

(** X2: when the device refuses the claim with error code [e], the four
    primitives fail with [errno = e] and every operation on a single valid
    port fails without any call on the device; the operations validated by a
    family macro overwrite the code of the claim with [EINVAL], those
    validated by [validate_type] leave it in [errno]. *)
Theorem claim_refused (port e : Z) (s : state) :
  valid_port port = true -> hw_claim (device s) = Some e ->
  (forall ty,
     adi_port_config_set (R := Z) port ty s = Normal PROS_ERR (with_errno e s)) /\
  adi_port_config_get (R := Z) port s = Normal E_ADI_ERR (with_errno e s) /\
  (forall v, adi_value_set (R := Z) port v s = Normal PROS_ERR (with_errno e s)) /\
  adi_value_get (R := Z) port s = Normal PROS_ERR (with_errno e s) /\
  (forall op, single_port op = Some port ->
     run op s =
       Normal PROS_ERR
         (with_errno (if family_validated op then EINVAL else e) s)).
Proof.
  intros Hv Hc. pose proof (adi_access_refused port e s Hv Hc) as Ha.
  repeat split.
  - intros ty. now rewrite adi_port_config_set_eq, Ha.
  - now rewrite adi_port_config_get_eq, Ha.
  - intros v. now rewrite adi_value_set_eq, Ha.
  - now rewrite adi_value_get_eq, Ha.
  - intros op Hop. apply run_validation_returned.
    now apply validation_refused with (port := port).
Qed.

Lemma claim_refused_witness :
  run (MotorStop 1) (refusing 13 (boot_state (constant_input 0)))
    = Normal PROS_ERR
        (with_errno EINVAL (refusing 13 (boot_state (constant_input 0)))) /\
  run (EncoderGet 1) (refusing 13 (boot_state (constant_input 0)))
    = Normal PROS_ERR
        (with_errno 13 (refusing 13 (boot_state (constant_input 0)))).
Proof.
  destruct (claim_refused 1 13 (refusing 13 (boot_state (constant_input 0)))
              eq_refl eq_refl) as (_ & _ & _ & _ & Hop).
  split; [exact (Hop (MotorStop 1) eq_refl) | exact (Hop (EncoderGet 1) eq_refl)].
Defined.

(** X3: on a valid port, with the access granted, an operation whose
    validation macro does not accept the configuration of the port fails after
    the one configuration read, with [errno = EINVAL] if the macro is a family
    macro and with [errno] unchanged if it is [validate_type]. *)
Theorem config_mismatch (op : operation) (port : Z) (s : state) :
  single_port op = Some port ->
  valid_port port = true -> hw_claim (device s) = None ->
  ~ In (hw_config (device s) (adi_port_index port)) (accepted_configurations op) ->
  run op s =
    Normal PROS_ERR
      (if family_validated op
       then with_errno EINVAL (config_read (adi_port_index port) s)
       else config_read (adi_port_index port) s).
Proof.
  intros Hop Hv Hc Hin. apply run_validation_returned.
  now apply (validation_granted op port s Hop Hv Hc).
Qed.

Lemma config_mismatch_witness :
  run (AnalogRead 2) (configured 1 E_ADI_ANALOG_OUT (constant_input 7))
  = Normal PROS_ERR
      (with_errno EINVAL
         (config_read 1 (configured 1 E_ADI_ANALOG_OUT (constant_input 7)))).
Proof.
  apply (config_mismatch (AnalogRead 2) 2
           (configured 1 E_ADI_ANALOG_OUT (constant_input 7))
           eq_refl eq_refl eq_refl).
  cbn. intuition discriminate.
Defined.

(** ** Reads and writes on an accepted configuration *)

(** A function whose body opens with a validation that passes goes on with
    the rest of its body in the state the validation left. *)
Lemma call_validation_passed {R A} (v : M R A) (k : A -> M R Empty_set)
    (s : state) (a : A) (s1 : state) :
  v s = Normal a s1 -> call (R' := R) (v ≫= k) s = call (R' := R) (k a) s1.
Proof. intros H. unfold call. rewrite bind_run, H. reflexivity. Qed.

Lemma adi_analog_read_ok (port : Z) (s : state) :
  valid_port port = true -> hw_claim (device s) = None ->
  In (hw_config (device s) (adi_port_index port)) analog_family ->
  adi_analog_read (R := Z) port s
  = Normal (next_raw (adi_port_index port) s)
      (value_read (adi_port_index port) (config_read (adi_port_index port) s)).
Proof.
  intros Hv Hc Hin. unfold adi_analog_read.
  rewrite (call_validation_passed _ _ s tt (config_read (adi_port_index port) s))
    by exact (proj1 (validation_granted (AnalogRead port) port s
                       eq_refl Hv Hc) Hin).
  unfold call. rewrite bind_run, adi_value_get_granted by assumption.
  reflexivity.
Qed.

Lemma adi_digital_read_ok (port : Z) (s : state) :
  valid_port port = true -> hw_claim (device s) = None ->
  In (hw_config (device s) (adi_port_index port)) digital_in_family ->
  adi_digital_read (R := Z) port s
  = Normal (next_raw (adi_port_index port) s)
      (value_read (adi_port_index port) (config_read (adi_port_index port) s)).
Proof.
  intros Hv Hc Hin. unfold adi_digital_read.
  rewrite (call_validation_passed _ _ s tt (config_read (adi_port_index port) s))
    by exact (proj1 (validation_granted (DigitalRead port) port s
                       eq_refl Hv Hc) Hin).
  unfold call. rewrite bind_run, adi_value_get_granted by assumption.
  reflexivity.
Qed.





Lemma adi_digital_write_ok (port : Z) (val : bool) (s : state) :
  valid_port port = true -> hw_claim (device s) = None ->
  hw_config (device s) (adi_port_index port) = E_ADI_DIGITAL_OUT ->
  adi_digital_write (R := Z) port val s
  = Normal 1 (value_written (adi_port_index port) (if val then 1 else 0)
                (config_read (adi_port_index port) s)).
Proof.
  intros Hv Hc Hin. unfold adi_digital_write.
  rewrite (call_validation_passed _ _ s tt (config_read (adi_port_index port) s))
    by (apply (proj1 (validation_granted (DigitalWrite port val) port s
                        eq_refl Hv Hc)); left; symmetry; exact Hin).
  unfold call. rewrite bind_run, adi_value_set_granted by assumption.
  reflexivity.
Qed.





(** ** Shutting a device down, choosing a pin mode *)

Lemma undefined_not_accepted (op : operation) :
  ~ In E_ADI_TYPE_UNDEFINED (accepted_configurations op).
Proof. destruct op; cbn; intuition discriminate. Qed.

Lemma analog_out_not_accepted (op : operation) :
  ~ In E_ADI_ANALOG_OUT (accepted_configurations op).
Proof. destruct op; cbn; intuition discriminate. Qed.

(** Every function that opens with a configuration validation of its one
    port or handle argument returns the failure value on a port whose
    configuration no validation macro accepts. *)
Lemma refused_on (config : adi_port_config_e_t) (op : operation) (port : Z)
    (s : state) :
  (forall op', ~ In config (accepted_configurations op')) ->
  single_port op = Some port ->
  valid_port port = true -> hw_claim (device s) = None ->
  hw_config (device s) (adi_port_index port) = config ->
  result (run op s) = Some PROS_ERR.
Proof.
  intros Hno Hop Hv Hc Hcfg.
  rewrite (run_validation_returned op s PROS_ERR _
             (proj2 (validation_granted op port s Hop Hv Hc)
                (eq_ind_r (fun c => ~ In c _) (Hno op) Hcfg))).
  reflexivity.
Qed.

(** X6: [adi_encoder_shutdown] and [adi_ultrasonic_shutdown] on a valid port
    of their configuration, with the access granted, set the port to
    [E_ADI_TYPE_UNDEFINED] and return 1; from then on each of the fourteen
    functions that open with a configuration validation of their one port or
    handle argument (the analog, digital and motor functions,
    [adi_encoder_get], [adi_encoder_reset], [adi_encoder_shutdown],
    [adi_ultrasonic_get], [adi_ultrasonic_shutdown]) returns the failure value
    on that port, through any of its identifiers.  The four primitives,
    [adi_pin_mode] and the two-wire initialisations validate no configuration
    and are not among them. *)
Theorem shutdown_revokes (port port' : Z) (s : state) :
  valid_port port = true -> valid_port port' = true ->
  adi_port_index port' = adi_port_index port ->
  hw_claim (device s) = None ->
  let index := adi_port_index port in
  let s' := config_written index E_ADI_TYPE_UNDEFINED (config_read index s) in
  (forall op, single_port op = Some port' -> result (run op s') = Some PROS_ERR) /\
  (hw_config (device s) index = E_ADI_LEGACY_ENCODER ->
   adi_encoder_shutdown (R := Z) port s = Normal 1 s') /\
  (hw_config (device s) index = E_ADI_LEGACY_ULTRASONIC ->
   adi_ultrasonic_shutdown (R := Z) port s = Normal 1 s').
Proof.
  intros Hv Hv' Hidx Hc index s'. repeat split.
  - intros op Hop.
    apply (refused_on E_ADI_TYPE_UNDEFINED op port' s'
             undefined_not_accepted Hop Hv' Hc).
    rewrite Hidx. apply fn_lookup_insert.
  - intros Hcfg. unfold adi_encoder_shutdown.
    rewrite (call_validation_passed _ _ s tt (config_read index s))
      by (apply (proj1 (validation_granted (EncoderShutdown port) port s
                          eq_refl Hv Hc)); left; symmetry; exact Hcfg).
    unfold call. rewrite bind_run, adi_port_config_set_granted by assumption.
    reflexivity.
  - intros Hcfg. unfold adi_ultrasonic_shutdown.
    rewrite (call_validation_passed _ _ s tt (config_read index s))
      by (apply (proj1 (validation_granted (UltrasonicShutdown port) port s
                          eq_refl Hv Hc)); left; symmetry; exact Hcfg).
    unfold call. rewrite bind_run, adi_port_config_set_granted by assumption.
    reflexivity.
Qed.

Lemma shutdown_revokes_witness :
  result (and_then
            (adi_ultrasonic_shutdown (R := Z) 5
               (configured 4 E_ADI_LEGACY_ULTRASONIC (constant_input 9)))
            (fun _ => adi_ultrasonic_get (chr "e"))) = Some PROS_ERR.
Proof.
  destruct (shutdown_revokes 5 (chr "e")
              (configured 4 E_ADI_LEGACY_ULTRASONIC (constant_input 9))
              eq_refl eq_refl eq_refl eq_refl) as (Hops & _ & Hshut).
  rewrite (Hshut eq_refl). cbn [and_then].
  exact (Hops (UltrasonicGet (chr "e")) eq_refl).
Defined.

(** X7: on a valid port, with the access granted, [adi_pin_mode] with a
    recognised mode writes the configuration of its [switch] case and returns
    1.  After [OUTPUT], [adi_digital_write] goes through; after [INPUT],
    [adi_digital_read] returns the raw value; after [INPUT_ANALOG],
    [adi_analog_read] returns the raw value; after [OUTPUT_ANALOG], each of
    the fourteen functions that open with a configuration validation of their
    one port or handle argument returns the failure value on that port.  The
    four primitives, [adi_pin_mode] and the two-wire initialisations validate
    no configuration and are not among them. *)
Theorem pin_mode_then_use (port port' : Z) (s : state) :
  valid_port port = true -> valid_port port' = true ->
  adi_port_index port' = adi_port_index port ->
  hw_claim (device s) = None ->
  let index := adi_port_index port in
  let after config := config_written index config s in
  (forall mode config, mode_config mode = Some config ->
     adi_pin_mode (R := Z) port mode s = Normal 1 (after config)) /\
  (forall val : bool,
     adi_digital_write (R := Z) port' val (after E_ADI_DIGITAL_OUT)
     = Normal 1 (value_written index (if val then 1 else 0)
                   (config_read index (after E_ADI_DIGITAL_OUT)))) /\
  adi_digital_read (R := Z) port' (after E_ADI_DIGITAL_IN)
  = Normal (next_raw index s)
      (value_read index (config_read index (after E_ADI_DIGITAL_IN))) /\
  adi_analog_read (R := Z) port' (after E_ADI_ANALOG_IN)
  = Normal (next_raw index s)
      (value_read index (config_read index (after E_ADI_ANALOG_IN))) /\
  (forall op, single_port op = Some port' ->
     result (run op (after E_ADI_ANALOG_OUT)) = Some PROS_ERR).
Proof.
  intros Hv Hv' Hidx Hc index after.
  assert (Hcfg : forall config,
             hw_config (device (after config)) (adi_port_index port') = config).
  { intros config. rewrite Hidx. apply fn_lookup_insert. }
  split; [| split; [| split; [| split]]].
  - intros mode config Hm. unfold adi_pin_mode, call.
    destruct mode; cbn [mode_config] in Hm; try discriminate;
      injection Hm as <-;
      rewrite !bind_run, adi_port_config_set_granted by assumption;
      reflexivity.
  - intros val.
    rewrite (adi_digital_write_ok port' val (after E_ADI_DIGITAL_OUT) Hv' Hc
               (Hcfg _)), Hidx.
    reflexivity.
  - rewrite (adi_digital_read_ok port' (after E_ADI_DIGITAL_IN) Hv' Hc)
      by (rewrite Hcfg; now left).
    rewrite Hidx. reflexivity.
  - rewrite (adi_analog_read_ok port' (after E_ADI_ANALOG_IN) Hv' Hc)
      by (rewrite Hcfg; now left).
    rewrite Hidx. reflexivity.
  - intros op Hop.
    apply (refused_on E_ADI_ANALOG_OUT op port' (after E_ADI_ANALOG_OUT)
             analog_out_not_accepted Hop Hv' Hc (Hcfg _)).
Qed.

Lemma pin_mode_then_use_witness :
  and_then (adi_pin_mode (R := Z) (chr "d") OUTPUT (boot_state (constant_input 0)))
    (fun _ => adi_digital_write 4 true)
  = Normal 1
      (value_written 3 1
         (config_read 3
            (config_written 3 E_ADI_DIGITAL_OUT (boot_state (constant_input 0))))).
Proof.
  destruct (pin_mode_then_use (chr "d") 4 (boot_state (constant_input 0))
              eq_refl eq_refl eq_refl eq_refl) as (Hmode & Hwrite & _).
  rewrite (Hmode OUTPUT E_ADI_DIGITAL_OUT eq_refl). cbn [and_then].
  exact (Hwrite true).
Defined.

(** ** Calibrated reads *)











(** ** Legacy motors *)

(** X11: [adi_motor_set] saturates: a speed and its clamped value give the
    same computation, so every speed above 127 behaves as 127 and every speed
    below -128 as -128; [adi_motor_stop] is [adi_motor_set] with speed 0.
    This holds in every state, whether the call succeeds or fails. *)
Theorem motor_set_saturates (port speed : Z) (s : state) :
  adi_motor_set (R := Z) port speed s
  = adi_motor_set (R := Z) port (clamp_speed speed) s /\
  (speed > ADI_MOTOR_MAX_SPEED ->
   adi_motor_set (R := Z) port speed s
   = adi_motor_set (R := Z) port ADI_MOTOR_MAX_SPEED s) /\
  (speed < ADI_MOTOR_MIN_SPEED ->
   adi_motor_set (R := Z) port speed s
   = adi_motor_set (R := Z) port ADI_MOTOR_MIN_SPEED s) /\
  adi_motor_stop (R := Z) port s = adi_motor_set (R := Z) port 0 s.
Proof.
  assert (Hidem : clamp_speed (clamp_speed speed) = clamp_speed speed)
    by (apply clamp_speed_id, clamp_speed_range).
  split; [| split; [| split]].
  - unfold adi_motor_set. cbv zeta. now rewrite Hidem.
  - intros Hs. unfold adi_motor_set. cbv zeta.
    replace (clamp_speed speed) with ADI_MOTOR_MAX_SPEED; [reflexivity |].
    unfold clamp_speed, ADI_MOTOR_MAX_SPEED in *.
    now replace (speed >? 127) with true by lia.
  - intros Hs. unfold adi_motor_set. cbv zeta.
    replace (clamp_speed speed) with ADI_MOTOR_MIN_SPEED; [reflexivity |].
    unfold clamp_speed, ADI_MOTOR_MIN_SPEED, ADI_MOTOR_MAX_SPEED in *.
    replace (speed >? 127) with false by lia.
    now replace (speed <? -128) with true by lia.
  - reflexivity.
Qed.

Lemma motor_set_saturates_witness :
  adi_motor_set (R := Z) 1 1000 (configured 0 E_ADI_LEGACY_SERVO (constant_input 0))
  = adi_motor_set (R := Z) 1 ADI_MOTOR_MAX_SPEED
      (configured 0 E_ADI_LEGACY_SERVO (constant_input 0)).
Proof.
  apply (motor_set_saturates 1 1000
           (configured 0 E_ADI_LEGACY_SERVO (constant_input 0))).
  unfold ADI_MOTOR_MAX_SPEED. lia.
Defined.

(** ** Two-wire initialisation *)

Lemma validate_twowire_sym (port_top port_bottom : Z) (s : state) :
  Z.abs (port_top - port_bottom) <= INT32_MAX ->
  validate_twowire port_bottom port_top s = validate_twowire port_top port_bottom s.
Proof.
  intros Hd.
  rewrite (validate_twowire_invalid_pair port_top port_bottom s Hd).
  rewrite (validate_twowire_invalid_pair port_bottom port_top s) by lia.
  unfold invalid_pair.
  replace (Z.abs (port_bottom - port_top)) with (Z.abs (port_top - port_bottom))
    by lia.
  now rewrite Z.min_comm, (Z.eqb_sym port_bottom port_top).
Qed.

(** X12: [adi_encoder_init] does not tell its two ports apart: with the ports
    exchanged it is the same computation, for every pair whose difference is
    representable. *)
Theorem encoder_init_symmetric (port_top port_bottom : Z) (reverse : bool)
    (s : state) :
  Z.abs (port_top - port_bottom) <= INT32_MAX ->
  adi_encoder_init (R := Z) port_bottom port_top reverse s
  = adi_encoder_init (R := Z) port_top port_bottom reverse s.
Proof.
  intros Hd. unfold adi_encoder_init, call.
  now rewrite !bind_run, (validate_twowire_sym port_top port_bottom s Hd).
Qed.

Lemma encoder_init_symmetric_witness :
  adi_encoder_init (R := Z) 4 3 true (boot_state (constant_input 0))
  = adi_encoder_init (R := Z) 3 4 true (boot_state (constant_input 0)).
Proof.
  apply (encoder_init_symmetric 3 4 true (boot_state (constant_input 0))).
  unfold INT32_MAX. lia.
Defined.

Lemma adi_port_config_set_normal (port : Z) (ty : adi_port_config_e_t)
    (s : state) :
  exists r s', adi_port_config_set (R := Z) port ty s = Normal r s'.
Proof.
  rewrite adi_port_config_set_eq. destruct (adi_access port s); cbn; eauto.
Qed.

(** X13: [adi_ultrasonic_init] goes on to configure the echo port exactly
    when the ping port is the echo port plus one and the echo port is odd; it
    then returns what [adi_port_config_set] on the echo port returns.  In
    every other case it returns the failure value and changes nothing but
    [errno], which it sets (to [EINVAL]) only when the ports are more than one
    apart.  Unlike [adi_encoder_init], it refuses the exchanged pair. *)
Theorem ultrasonic_init_spec (port_echo port_ping : Z) (s : state) :
  Z.abs (port_echo - port_ping) <= INT32_MAX ->
  adi_ultrasonic_init (R := Z) port_echo port_ping s
  = if Z.abs (port_echo - port_ping) >? 1
    then Normal PROS_ERR (with_errno EINVAL s)
    else if (port_ping =? port_echo + 1) && Z.odd port_echo
         then adi_port_config_set port_echo E_ADI_LEGACY_ULTRASONIC s
         else Normal PROS_ERR s.
Proof.
  intros Hd. unfold adi_ultrasonic_init, call.
  rewrite bind_run, (validate_twowire_invalid_pair _ _ s Hd).
  destruct (Z.abs (port_echo - port_ping) >? 1) eqn:Efar; [reflexivity |].
  unfold invalid_pair. rewrite Efar. cbn [orb].
  destruct (Z.eqb_spec port_echo port_ping) as [-> | Hne]; cbn [orb].
  { replace (port_ping =? port_ping + 1) with false by lia. reflexivity. }
  destruct (Z.ltb_spec port_echo port_ping) as [Hlt | Hge].
  - replace (Z.min port_echo port_ping) with port_echo by lia.
    replace (port_ping =? port_echo + 1) with true by lia. cbn [andb].
    rewrite <- Z.negb_even.
    destruct (Z.even port_echo); cbn [negb and_then]; [reflexivity |].
    rewrite bind_run. rewrite Z.eqb_refl. cbn [negb mret M_ret and_then].
    rewrite bind_run.
    destruct (adi_port_config_set_normal port_echo E_ADI_LEGACY_ULTRASONIC s)
      as (r & s' & ->).
    reflexivity.
  - replace (Z.min port_echo port_ping) with port_ping by lia.
    replace (port_ping =? port_echo + 1) with false by lia. cbn [andb].
    destruct (Z.even port_ping); cbn [and_then]; [reflexivity |].
    rewrite bind_run.
    replace (port_ping =? port_echo) with false by lia. reflexivity.
Qed.

Lemma ultrasonic_init_spec_witness :
  adi_ultrasonic_init (R := Z) 4 3 (boot_state (constant_input 0))
  = Normal PROS_ERR (boot_state (constant_input 0)).
Proof.
  assert (Hd : Z.abs (4 - 3) <= INT32_MAX) by (unfold INT32_MAX; lia).
  rewrite (ultrasonic_init_spec 4 3 (boot_state (constant_input 0)) Hd).
  reflexivity.
Defined.

(** ** Encoders *)

Lemma twowire_slot_in_bounds (port : Z) :
  1 <= port <= 8 ->
  Z.quot (wrap_int32 (port - 1)) 2 = (port - 1) / 2 /\
  0 <= (port - 1) / 2 <= 3.
Proof.
  intros Hp.
  rewrite wrap_int32_id by (unfold is_int32, INT32_MIN, INT32_MAX; lia).
  rewrite Z.quot_div_nonneg by lia. split; [reflexivity |].
  split; [apply Z.div_pos; lia |].
  assert ((port - 1) / 2 < 4) by (apply Z.div_lt_upper_bound; lia). lia.
Qed.

Lemma validate_twowire_odd_pair (port : Z) (s : state) :
  1 <= port <= 7 -> Z.odd port = true ->
  validate_twowire port (port + 1) s = Normal port s.
Proof.
  intros Hp Hodd.
  rewrite validate_twowire_invalid_pair by (unfold INT32_MAX; lia).
  replace (Z.abs (port - (port + 1)) >? 1) with false by lia.
  assert (Hpair : invalid_pair port (port + 1) = false).
  { unfold invalid_pair.
    replace (Z.abs (port - (port + 1)) >? 1) with false by lia.
    replace (port =? port + 1) with false by lia.
    replace (Z.min port (port + 1)) with port by lia.
    now rewrite <- Z.negb_odd, Hodd. }
  rewrite Hpair. now replace (Z.min port (port + 1)) with port by lia.
Qed.

(** [adi_encoder_init] on a pair that resolves to [port], whose slot of
    [encoder_reversed] exists. *)
Lemma adi_encoder_init_at (port_top port_bottom port slot : Z)
    (reverse old : bool) (s : state) :
  validate_twowire port_top port_bottom s = Normal port s ->
  Z.quot (wrap_int32 (port - 1)) 2 = slot ->
  in_bounds slot NUM_MAX_TWOWIRE = true ->
  encoder_reversed s !! Z.to_nat slot = Some old ->
  valid_port port = true -> hw_claim (device s) = None ->
  adi_encoder_init (R := Z) port_top port_bottom reverse s
  = Normal 1
      (config_written (adi_port_index port) E_ADI_LEGACY_ENCODER
         (with_encoder_reversed
            (<[Z.to_nat slot := reverse]> (encoder_reversed s)) s)).
Proof.
  intros Hres Hslot Hin Hold Hv Hc.
  unfold adi_encoder_init, call. rewrite bind_run, Hres.
  cbn [and_then]. rewrite bind_run. unfold store_reversed.
  rewrite Hslot, Hin, Hold. cbn [and_then]. rewrite bind_run.
  rewrite adi_port_config_set_granted by assumption. reflexivity.
Qed.

(** X14: on a pair made of an odd port 1, 3, 5 or 7 and the next port, with
    the access granted, [adi_encoder_init] records the direction in slot
    [(port - 1) / 2] of [encoder_reversed], leaves the other slots alone,
    configures the odd port as encoder and returns 1. *)
Theorem encoder_init_effect (port : Z) (reverse : bool) (s : state) :
  1 <= port <= 7 -> Z.odd port = true ->
  wf_state s -> hw_claim (device s) = None ->
  adi_encoder_init (R := Z) port (port + 1) reverse s
  = Normal 1
      (config_written (port - 1) E_ADI_LEGACY_ENCODER
         (with_encoder_reversed
            (<[Z.to_nat ((port - 1) / 2) := reverse]> (encoder_reversed s)) s)).
Proof.
  intros Hp Hodd (_ & Hlen) Hc.
  assert (Hn : numeric_port port = true) by (unfold numeric_port; lia).
  assert (Hv : valid_port port = true) by (unfold valid_port; now rewrite Hn).
  destruct (twowire_slot_in_bounds port) as [Hslot Hbound]; [lia |].
  destruct (lookup_lt_is_Some_2 (encoder_reversed s) (Z.to_nat ((port - 1) / 2)))
    as [old Hold].
  { rewrite Hlen. unfold NUM_MAX_TWOWIRE. lia. }
  rewrite (adi_encoder_init_at port (port + 1) port ((port - 1) / 2) reverse old s
             (validate_twowire_odd_pair port s Hp Hodd) Hslot).
  - now rewrite (adi_port_index_numeric port Hn).
  - unfold in_bounds, NUM_MAX_TWOWIRE. lia.
  - exact Hold.
  - exact Hv.
  - exact Hc.
Qed.

Lemma encoder_init_effect_witness :
  adi_encoder_init (R := Z) 5 6 true (boot_state (constant_input 0))
  = Normal 1
      (config_written 4 E_ADI_LEGACY_ENCODER
         (with_encoder_reversed [false; false; true; false]
            (boot_state (constant_input 0)))).
Proof.
  assert (Hp : 1 <= 5 <= 7) by lia.
  exact (encoder_init_effect 5 true (boot_state (constant_input 0))
           Hp eq_refl (conj eq_refl eq_refl) eq_refl).
Defined.

(** X15: when the pair passes [validate_twowire] but its smaller port is not
    within 1..8 (a pair of letters, for one), [adi_encoder_init] indexes
    [encoder_reversed] outside its four slots, before the port is ever
    checked. *)
Theorem encoder_init_out_of_bounds (port_top port_bottom : Z) (reverse : bool)
    (s : state) :
  is_int32 port_top -> is_int32 port_bottom ->
  Z.abs (port_top - port_bottom) <= INT32_MAX ->
  invalid_pair port_top port_bottom = false ->
  Z.min port_top port_bottom < 1 \/ Z.min port_top port_bottom > 8 ->
  adi_encoder_init (R := Z) port_top port_bottom reverse s
  = Undefined (OutOfBounds ENCODER_REVERSED
                 (Z.quot (Z.min port_top port_bottom - 1) 2)).
Proof.
  intros Ht Hb Hd Hpair Hout.
  unfold adi_encoder_init, call.
  rewrite bind_run, (validate_twowire_invalid_pair _ _ s Hd), Hpair.
  unfold invalid_pair in Hpair.
  destruct (Z.abs (port_top - port_bottom) >? 1); [discriminate |].
  destruct (port_top =? port_bottom); [discriminate |]. cbn [orb] in Hpair.
  set (port := Z.min port_top port_bottom) in *.
  assert (Hport : is_int32 port).
  { unfold is_int32 in *. unfold port. lia. }
  assert (Hmin : port <> INT32_MIN).
  { intros E. rewrite E in Hpair. discriminate. }
  cbn [and_then]. rewrite bind_run. unfold store_reversed.
  rewrite (wrap_int32_id (port - 1))
    by (unfold is_int32, INT32_MIN, INT32_MAX in *; lia).
  assert (Hq : Z.quot (port - 1) 2 < 0 \/ Z.quot (port - 1) 2 >= 4).
  { destruct Hout as [Hlow | Hhigh].
    - left. assert (port <> 0) by (intros E; rewrite E in Hpair; discriminate).
      replace (port - 1) with (- (1 - port)) by lia.
      rewrite Z.quot_opp_l by lia. rewrite Z.quot_div_nonneg by lia.
      assert (1 <= (1 - port) / 2) by (apply Z.div_le_lower_bound; lia). lia.
    - right. rewrite Z.quot_div_nonneg by lia.
      assert (4 <= (port - 1) / 2) by (apply Z.div_le_lower_bound; lia). lia. }
  replace (in_bounds (Z.quot (port - 1) 2) NUM_MAX_TWOWIRE) with false
    by (unfold in_bounds, NUM_MAX_TWOWIRE; lia).
  reflexivity.
Qed.

Lemma encoder_init_out_of_bounds_witness :
  adi_encoder_init (R := Z) (chr "a") (chr "b") false
    (boot_state (constant_input 0))
  = Undefined (OutOfBounds ENCODER_REVERSED 48).
Proof.
  assert (Ha : is_int32 (chr "a"))
    by (change (chr "a") with 97; unfold is_int32, INT32_MIN, INT32_MAX; lia).
  assert (Hb : is_int32 (chr "b"))
    by (change (chr "b") with 98; unfold is_int32, INT32_MIN, INT32_MAX; lia).
  assert (Hd : Z.abs (chr "a" - chr "b") <= INT32_MAX)
    by (change (chr "a") with 97; change (chr "b") with 98;
        unfold INT32_MAX; lia).
  assert (Hout : Z.min (chr "a") (chr "b") < 1 \/ Z.min (chr "a") (chr "b") > 8)
    by (change (chr "a") with 97; change (chr "b") with 98; lia).
  exact (encoder_init_out_of_bounds (chr "a") (chr "b") false
           (boot_state (constant_input 0)) Ha Hb Hd eq_refl Hout).
Defined.






(** ** What an operation may change *)

Section Respects.
Context {R : Type} (P : state -> state -> Prop).
Hypothesis P_refl : forall s, P s s.
Hypothesis P_trans : forall s1 s2 s3, P s1 s2 -> P s2 s3 -> P s1 s3.

Lemma respects_ret {A} (a : A) : respects P (mret (M := M R) a).
Proof. intros s. apply P_refl. Qed.

Lemma respects_return {A} (r : R) : respects P (return_ (A := A) r).
Proof. intros s. apply P_refl. Qed.

Lemma respects_bind_val {A B} (m : M R A) (k : A -> M R B) :
  respects P m ->
  (forall s a s1, m s = Normal a s1 -> respects P (k a)) ->
  respects P (m ≫= k).
Proof.
  intros Hm Hk s. rewrite bind_run. specialize (Hm s).
  destruct (m s) as [a s1 | r s1 | u] eqn:E; cbn [and_then]; try assumption.
  specialize (Hk s a s1 E s1).
  destruct (k a s1); try exact I; eapply P_trans; eassumption.
Qed.

Lemma respects_bind {A B} (m : M R A) (k : A -> M R B) :
  respects P m -> (forall a, respects P (k a)) -> respects P (m ≫= k).
Proof. intros Hm Hk. apply respects_bind_val; auto. Qed.

Lemma respects_for {A} (n : nat) (body : A -> M R A) (acc : A) :
  (forall a, respects P (body a)) -> respects P (for_ n body acc).
Proof.
  intros Hbody. revert acc. induction n as [| n IH]; intros acc.
  - apply respects_ret.
  - cbn [for_]. apply respects_bind; auto.
Qed.
End Respects.

Lemma respects_call {R R'} (P : state -> state -> Prop) (body : M R Empty_set) :
  respects P body -> respects P (call (R' := R') body).
Proof.
  intros Hb s. specialize (Hb s). unfold call.
  destruct (body s) as [[] | |]; assumption.
Qed.

Lemma array_kept_refl {A} (b : bool) (l : list A) : array_kept b l l.
Proof. destruct b; reflexivity. Qed.

Lemma array_kept_trans {A} (b : bool) (l1 l2 l3 : list A) :
  array_kept b l1 l2 -> array_kept b l2 l3 -> array_kept b l1 l3.
Proof. destruct b; cbn; congruence. Qed.

Lemma evolves_refl (i : Z) (ac ar : bool) (s : state) : evolves i ac ar s s.
Proof.
  repeat split; auto using array_kept_refl.
Qed.

Lemma evolves_trans (i : Z) (ac ar : bool) (s1 s2 s3 : state) :
  evolves i ac ar s1 s2 -> evolves i ac ar s2 s3 -> evolves i ac ar s1 s3.
Proof.
  intros (Hp & He & Hc & Hi & Ha & Hr) (Hp' & He' & Hc' & Hi' & Ha' & Hr').
  repeat split.
  - destruct (Hp j H), (Hp' j H). congruence.
  - destruct (Hp j H), (Hp' j H). congruence.
  - destruct He' as [E | [E | E]].
    + rewrite E. exact He.
    + right. left. exact E.
    + right. right. congruence.
  - congruence.
  - congruence.
  - eapply array_kept_trans; eassumption.
  - eapply array_kept_trans; eassumption.
Qed.

(** Setting [errno] to [EINVAL], or to the code of the refused claim. *)
Lemma evolves_errno (i : Z) (ac ar : bool) (e : Z) (s : state) :
  e = EINVAL \/ hw_claim (device s) = Some e ->
  evolves i ac ar s (with_errno e s).
Proof.
  intros He. repeat split; auto using array_kept_refl.
Qed.

Lemma evolves_config_read (i k : Z) (ac ar : bool) (s : state) :
  evolves i ac ar s (config_read k s).
Proof. repeat split; auto using array_kept_refl. Qed.

Lemma evolves_value_read (i k : Z) (ac ar : bool) (s : state) :
  evolves i ac ar s (value_read k s).
Proof. repeat split; auto using array_kept_refl. Qed.

Lemma evolves_config_written (i : Z) (ty : adi_port_config_e_t) (ac ar : bool)
    (s : state) :
  evolves i ac ar s (config_written i ty s).
Proof.
  repeat split; auto using array_kept_refl.
  cbn. apply fn_lookup_insert_ne. congruence.
Qed.

Lemma evolves_value_written (i v : Z) (ac ar : bool) (s : state) :
  evolves i ac ar s (value_written i v s).
Proof.
  repeat split; auto using array_kept_refl.
  cbn. apply fn_lookup_insert_ne. congruence.
Qed.

Section Primitives.
Context {R : Type} (port : Z) (ac ar : bool).

Let E := evolves (adi_port_index port) ac ar.

Lemma respects_set_errno : respects E (set_errno (R := R) EINVAL).
Proof. intros s. apply evolves_errno. now left. Qed.

Lemma respects_config_set (ty : adi_port_config_e_t) :
  respects E (adi_port_config_set (R := R) port ty).
Proof.
  intros s. rewrite adi_port_config_set_eq. unfold adi_access.
  destruct (_ || _); [apply evolves_errno; now left |].
  destruct (hw_claim (device s)) eqn:Hc;
    [apply evolves_errno; now right | apply evolves_config_written].
Qed.

Lemma respects_config_get :
  respects E (adi_port_config_get (R := R) port).
Proof.
  intros s. rewrite adi_port_config_get_eq. unfold adi_access.
  destruct (_ || _); [apply evolves_errno; now left |].
  destruct (hw_claim (device s)) eqn:Hc;
    [apply evolves_errno; now right | apply evolves_config_read].
Qed.

Lemma respects_value_set (v : Z) :
  respects E (adi_value_set (R := R) port v).
Proof.
  intros s. rewrite adi_value_set_eq. unfold adi_access.
  destruct (_ || _); [apply evolves_errno; now left |].
  destruct (hw_claim (device s)) eqn:Hc;
    [apply evolves_errno; now right | apply evolves_value_written].
Qed.

Lemma respects_value_get :
  respects E (adi_value_get (R := R) port).
Proof.
  intros s. rewrite adi_value_get_eq. unfold adi_access.
  destruct (_ || _); [apply evolves_errno; now left |].
  destruct (hw_claim (device s)) eqn:Hc;
    [apply evolves_errno; now right | apply evolves_value_read].
Qed.
End Primitives.

Lemma respects_load_calib {R} (i k : Z) (ac ar : bool) :
  respects (evolves i ac ar) (load_calib (R := R) k).
Proof.
  intros s. unfold load_calib.
  destruct (if in_bounds k NUM_ADI_PORTS then _ else _); [| exact I].
  apply evolves_refl.
Qed.

Lemma respects_load_reversed {R} (i k : Z) (ac ar : bool) :
  respects (evolves i ac ar) (load_reversed (R := R) k).
Proof.
  intros s. unfold load_reversed.
  destruct (if in_bounds k NUM_MAX_TWOWIRE then _ else _); [| exact I].
  apply evolves_refl.
Qed.

Lemma respects_store_calib {R} (i k c : Z) (ar : bool) :
  respects (evolves i true ar) (store_calib (R := R) k c).
Proof.
  intros s. unfold store_calib.
  destruct (if in_bounds k NUM_ADI_PORTS then _ else _); [| exact I].
  repeat split; auto using array_kept_refl. cbn. apply length_insert.
Qed.

Lemma respects_store_reversed {R} (i k : Z) (b : bool) (ac : bool) :
  respects (evolves i ac true) (store_reversed (R := R) k b).
Proof.
  intros s. unfold store_reversed.
  destruct (if in_bounds k NUM_MAX_TWOWIRE then _ else _); [| exact I].
  repeat split; auto using array_kept_refl. cbn. apply length_insert.
Qed.

Lemma respects_validate_twowire (i : Z) (ac ar : bool) (port_top port_bottom : Z) :
  respects (evolves i ac ar) (validate_twowire port_top port_bottom).
Proof.
  intros s. rewrite validate_twowire_eq.
  destruct (_ >? 1); [apply evolves_errno; now left |].
  destruct (port_top =? port_bottom); [apply evolves_refl |].
  destruct (_ =? 0); apply evolves_refl.
Qed.

Lemma validate_twowire_port (port_top port_bottom : Z) (s : state)
    (port : Z) (s1 : state) :
  validate_twowire port_top port_bottom s = Normal port s1 ->
  port = Z.min port_top port_bottom.
Proof.
  rewrite validate_twowire_eq.
  destruct (_ >? 1); [discriminate |].
  destruct (port_top =? port_bottom); [discriminate |].
  destruct (_ =? 0); [discriminate |]. now intros [= <- _].
Qed.

(** One step of a proof that a function body respects [evolves]. *)
Ltac respects_step :=
  lazymatch goal with
  | |- respects _ (call _) => apply respects_call
  | |- respects _ (mret _) => apply respects_ret, evolves_refl
  | |- respects _ (return_ _) => apply respects_return, evolves_refl
  | |- respects _ (if ?b then _ else _) => destruct b
  | |- respects _ (set_errno EINVAL) => apply respects_set_errno
  | |- respects _ (adi_port_config_set _ _) => apply respects_config_set
  | |- respects _ (adi_port_config_get _) => apply respects_config_get
  | |- respects _ (adi_value_set _ _) => apply respects_value_set
  | |- respects _ (adi_value_get _) => apply respects_value_get
  | |- respects _ (task_delay _) => apply respects_ret, evolves_refl
  | |- respects _ (load_calib _) => apply respects_load_calib
  | |- respects _ (load_reversed _) => apply respects_load_reversed
  | |- respects _ (store_calib _ _) => apply respects_store_calib
  | |- respects _ (store_reversed _ _) => apply respects_store_reversed
  | |- respects _ (validate_twowire _ _) => apply respects_validate_twowire
  | |- respects _ (for_ _ _ _) =>
      apply respects_for; [apply evolves_refl | apply evolves_trans | intros ?]
  | |- respects _ (_ ≫= _) =>
      apply respects_bind; [apply evolves_trans | | intros ?]
  end.

(** Every function of the device feature layer respects [evolves] at the
    port it works on. *)
Lemma run_respects (op : operation) :
  respects (evolves (adi_port_index (working_port op))
              (stores_calibration op) (stores_direction op))
    (run op).
Proof.
  destruct op;
    cbn [run working_port stores_calibration stores_direction];
    unfold adi_analog_calibrate, adi_analog_read, adi_analog_read_calibrated,
      adi_analog_read_calibrated_HR, adi_digital_read, adi_digital_write,
      adi_motor_set, adi_motor_get, adi_motor_stop, adi_encoder_get,
      adi_encoder_reset, adi_encoder_shutdown, adi_ultrasonic_init,
      adi_ultrasonic_get, adi_ultrasonic_shutdown,
      validate_analog, validate_digital_in, validate_motor, validate_type,
      calibrate_sample;
    cbv zeta;
    try (repeat respects_step; fail).
  (* [adi_encoder_init]: the port configured is the one the validation
     resolved. *)
  unfold adi_encoder_init. apply respects_call.
  apply respects_bind_val;
    [apply evolves_trans | apply respects_validate_twowire |].
  intros s port s1 Hport. apply validate_twowire_port in Hport. subst port.
  repeat respects_step.
Qed.

Lemma respects_pin_mode (port : Z) (mode : pin_mode_t) :
  respects (evolves (adi_port_index port) false false)
    (adi_pin_mode (R := Z) port mode).
Proof.
  unfold adi_pin_mode. apply respects_call.
  destruct mode; repeat respects_step.
Qed.

Lemma run_evolves (op : operation) (s : state) (v : Z) (s' : state) :
  run op s = Normal v s' ->
  evolves (adi_port_index (working_port op))
    (stores_calibration op) (stores_direction op) s s'.
Proof. intros H. pose proof (run_respects op s) as Hr. now rewrite H in Hr. Qed.

Lemma pin_mode_evolves (port : Z) (mode : pin_mode_t) (s : state) (v : Z)
    (s' : state) :
  adi_pin_mode (R := Z) port mode s = Normal v s' ->
  evolves (adi_port_index port) false false s s'.
Proof.
  intros H. pose proof (respects_pin_mode port mode s) as Hr.
  now rewrite H in Hr.
Qed.

Lemma config_set_evolves (port : Z) (ty : adi_port_config_e_t) (s : state)
    (v : Z) (s' : state) :
  adi_port_config_set (R := Z) port ty s = Normal v s' ->
  evolves (adi_port_index port) false false s s'.
Proof.
  intros H. pose proof (respects_config_set (R := Z) port false false ty s) as Hr.
  now rewrite H in Hr.
Qed.

Lemma value_set_evolves (port val : Z) (s : state) (v : Z) (s' : state) :
  adi_value_set (R := Z) port val s = Normal v s' ->
  evolves (adi_port_index port) false false s s'.
Proof.
  intros H. pose proof (respects_value_set (R := Z) port false false val s) as Hr.
  now rewrite H in Hr.
Qed.

(** X18: no function changes the configuration or the output of a port
    other than the one it works on: the port of its argument, translated, and
    for [adi_encoder_init] the smaller port of the pair.  This holds of the
    sixteen device functions, of [adi_pin_mode], of [adi_port_config_set] and
    of [adi_value_set], whether the call succeeds or fails. *)
Theorem port_isolation (j : Z) (s : state) (v : Z) (s' : state) :
  let kept :=
    hw_config (device s') j = hw_config (device s) j /\
    hw_output (device s') j = hw_output (device s) j in
  (forall op, run op s = Normal v s' ->
     j <> adi_port_index (working_port op) -> kept) /\
  (forall port mode, adi_pin_mode (R := Z) port mode s = Normal v s' ->
     j <> adi_port_index port -> kept) /\
  (forall port ty, adi_port_config_set (R := Z) port ty s = Normal v s' ->
     j <> adi_port_index port -> kept) /\
  (forall port val, adi_value_set (R := Z) port val s = Normal v s' ->
     j <> adi_port_index port -> kept).
Proof.
  cbv zeta. repeat split; intros.
  all: match goal with
       | H : run _ _ = _ |- _ => apply run_evolves in H
       | H : adi_pin_mode _ _ _ = _ |- _ => apply pin_mode_evolves in H
       | H : adi_port_config_set _ _ _ = _ |- _ => apply config_set_evolves in H
       | H : adi_value_set _ _ _ = _ |- _ => apply value_set_evolves in H
       end.
  all: match goal with
       | H : evolves _ _ _ _ _, Hj : ?k <> _ |- _ =>
           destruct H as (Hp & _); destruct (Hp k Hj); assumption
       end.
Qed.

Lemma port_isolation_witness :
  hw_output
    (device (value_written 0 127
               (config_read 0 (configured 0 E_ADI_LEGACY_PWM (constant_input 0)))))
    5
  = hw_output (device (configured 0 E_ADI_LEGACY_PWM (constant_input 0))) 5.
Proof.
  refine (proj2 (proj1 (port_isolation 5
                          (configured 0 E_ADI_LEGACY_PWM (constant_input 0)) 1
                          (value_written 0 127
                             (config_read 0
                                (configured 0 E_ADI_LEGACY_PWM (constant_input 0)))))
                   (MotorSet 1 200) _ _)).
  - vm_compute. reflexivity.
  - vm_compute. discriminate.
Defined.

(** X19: no function clears [errno] or sets it to anything but [EINVAL] or
    the error code of a refused claim: after any call of one of the sixteen
    device functions or of [adi_pin_mode], [errno] is what it was, or
    [EINVAL], or that code. *)
Theorem errno_discipline (s : state) (v : Z) (s' : state) :
  let clause :=
    errno s' = errno s \/ errno s' = EINVAL \/
    hw_claim (device s) = Some (errno s') in
  (forall op, run op s = Normal v s' -> clause) /\
  (forall port mode, adi_pin_mode (R := Z) port mode s = Normal v s' -> clause).
Proof.
  cbv zeta. split.
  - intros op H. apply run_evolves in H. apply H.
  - intros port mode H. apply pin_mode_evolves in H. apply H.
Qed.

(** X20: [analog_registry] is stored into by [adi_analog_calibrate] alone and
    [encoder_reversed] by [adi_encoder_init] alone: every other device
    function, and [adi_pin_mode], leaves the array as it was, and no function
    changes the length of either. *)
Theorem auxiliary_state_kept (s : state) (v : Z) (s' : state) :
  (forall op, run op s = Normal v s' ->
     (stores_calibration op = false -> analog_registry s' = analog_registry s) /\
     (stores_direction op = false -> encoder_reversed s' = encoder_reversed s) /\
     (wf_state s -> wf_state s')) /\
  (forall port mode, adi_pin_mode (R := Z) port mode s = Normal v s' ->
     analog_registry s' = analog_registry s /\
     encoder_reversed s' = encoder_reversed s).
Proof.
  split.
  - intros op H. apply run_evolves in H.
    destruct H as (_ & _ & _ & _ & Ha & Hr).
    split; [| split].
    + intros E. rewrite E in Ha. exact Ha.
    + intros E. rewrite E in Hr. exact Hr.
    + intros [Hl1 Hl2]. unfold wf_state.
      destruct (stores_calibration op), (stores_direction op);
        cbn [array_kept] in Ha, Hr; split; congruence.
  - intros port mode H. apply pin_mode_evolves in H.
    destruct H as (_ & _ & _ & _ & Ha & Hr). split; assumption.
Qed.

Lemma errno_discipline_witness :
  errno (with_errno EINVAL (boot_state (constant_input 0)))
    = errno (boot_state (constant_input 0)) \/
  errno (with_errno EINVAL (boot_state (constant_input 0))) = EINVAL \/
  hw_claim (device (boot_state (constant_input 0)))
    = Some (errno (with_errno EINVAL (boot_state (constant_input 0)))).
Proof.
  refine (proj2 (errno_discipline (boot_state (constant_input 0)) 1
                   (with_errno EINVAL (boot_state (constant_input 0))))
            9 INPUT _).
  vm_compute. reflexivity.
Defined.

Lemma auxiliary_state_kept_witness :
  encoder_reversed
    (value_written 0 127
       (config_read 0 (configured 0 E_ADI_LEGACY_PWM (constant_input 0))))
  = encoder_reversed (configured 0 E_ADI_LEGACY_PWM (constant_input 0)).
Proof.
  refine (proj1 (proj2 (proj1 (auxiliary_state_kept
                                 (configured 0 E_ADI_LEGACY_PWM (constant_input 0))
                                 1
                                 (value_written 0 127
                                    (config_read 0
                                       (configured 0 E_ADI_LEGACY_PWM
                                          (constant_input 0)))))
                          (MotorSet 1 200) _)) eq_refl).
  vm_compute. reflexivity.
Defined.

(** ** Two-wire devices, through the canonical port *)



(** X22: whatever the pair and the state, a two-wire initialisation that
    comes back returns 1 or the failure value: the value is never a port
    other than 1. *)
Theorem init_returns_status_or_failure (port_a port_b : Z) (reverse : bool)
    (s : state) (v : Z) (s' : state) :
  adi_encoder_init (R := Z) port_a port_b reverse s = Normal v s' \/
  adi_ultrasonic_init (R := Z) port_a port_b s = Normal v s' ->
  v = 1 \/ v = PROS_ERR.
Proof.
  intros [H | H];
    eauto using adi_encoder_init_value, adi_ultrasonic_init_value.
Qed.

Lemma init_returns_status_or_failure_witness : 1 = 1 \/ 1 = PROS_ERR.
Proof.
  refine (init_returns_status_or_failure 7 8 false
            (boot_state (constant_input 0)) 1
            (config_written 6 E_ADI_LEGACY_ULTRASONIC
               (boot_state (constant_input 0))) (or_intror _)).
  vm_compute. reflexivity.
Defined.
